(** * Python-Vanila-MultiAgent: the agent workers and their script sandbox

    A shallow embedding of [agents/code_interpreter.py],
    [agents/visualization_agent.py], [agents/presentation_agent.py],
    [agents/answer_synthesiser.py] and [agents/base_agent.py].

    Python values become inductive types, dictionaries become [gmap]s (or
    association lists where the iteration order is observable), the mutable
    attribute [self.dataframes] and the process environment are passed
    explicitly, and a call that may raise returns a sum whose left side is the
    exception.  A script is arbitrary code: it can change in place the table
    objects it is handed, and it can raise an exception that
    [except Exception] does not catch; both are part of what [exec] yields. *)

From Stdlib Require Import ZArith NArith Ascii String List Lia.
From Stdlib.Strings Require Import Byte.
From stdpp Require Import base option list strings gmap fin_maps pretty.

Set Warnings "-register-all".

Open Scope string_scope.
Open Scope list_scope.

(** ** Python [str] operations

    A [string] stands for a Python [str] whose code points are below 256; an
    [ascii] is one code point. *)

Module PyStr.

Definition newline : ascii := ascii_of_nat 10.

(** [str.isspace] on one code point (below 256): TAB..CR, FS..US, SPACE, NEL
    and NBSP. *)
Definition isspace (c : ascii) : bool :=
  let n := nat_of_ascii c in
  ((9 <=? n)%nat && (n <=? 13)%nat) || ((28 <=? n)%nat && (n <=? 32)%nat)
  || (n =? 133)%nat || (n =? 160)%nat.

(** [s.startswith(p)] *)
Fixpoint startswith (p s : string) : bool :=
  match p, s with
  | EmptyString, _ => true
  | String a p', String b s' => if decide (a = b) then startswith p' s' else false
  | String _ _, EmptyString => false
  end.

Fixpoint lstrip (s : string) : string :=
  match s with
  | EmptyString => EmptyString
  | String c s' => if isspace c then lstrip s' else s
  end.

Fixpoint rstrip (s : string) : string :=
  match s with
  | EmptyString => EmptyString
  | String c s' =>
      match rstrip s' with
      | EmptyString => if isspace c then EmptyString else String c EmptyString
      | r => String c r
      end
  end.

(** [s.strip()] *)
Definition strip (s : string) : string := rstrip (lstrip s).

(** [s.split("\n")]: never empty, one more item than there are newlines. *)
Fixpoint split_newline (s : string) : list string :=
  match s with
  | EmptyString => [EmptyString]
  | String c s' =>
      if decide (c = newline) then EmptyString :: split_newline s'
      else match split_newline s' with
           | l :: ls => String c l :: ls
           | [] => [String c EmptyString]
           end
  end.

(** ["\n".join(items)] *)
Definition join_newline (items : list string) : string :=
  String.concat (String newline EmptyString) items.

(** [str.lower] on one code point below 256: A..Z and the Latin-1 capitals. *)
Definition lower_char (c : ascii) : ascii :=
  let n := nat_of_ascii c in
  if ((65 <=? n)%nat && (n <=? 90)%nat)
     || ((192 <=? n)%nat && (n <=? 222)%nat && negb (n =? 215)%nat)
  then ascii_of_nat (n + 32) else c.

Fixpoint lower (s : string) : string :=
  match s with
  | EmptyString => EmptyString
  | String c s' => String (lower_char c) (lower s')
  end.

(** [sub in s] for two strings: [sub] occurs at some offset of [s]. *)
Fixpoint contains (sub s : string) : bool :=
  startswith sub s ||
  match s with
  | EmptyString => false
  | String _ s' => contains sub s'
  end.

End PyStr.

(** ** The script extractor

    [_extract_code_blocks] is the same method, line for line, in
    [CodeInterpreterAgent] and [VisualizationAgent]. *)

Module Extractor.
Import PyStr.

Definition fence_open : string := "```python".
Definition fence_close : string := "```".

(** The three locals of the loop. *)
Record scan := Scan {
  code_blocks : list string;
  in_code_block : bool;
  current_block : list string
}.

Definition scan_start : scan := Scan [] false [].

Definition opens (line : string) : bool := startswith fence_open (strip line).
Definition closes (line : string) : bool := String.eqb (strip line) fence_close.

(** One iteration of [for line in lines]. *)
Definition scan_line (st : scan) (line : string) : scan :=
  if opens line then
    Scan (code_blocks st) true []
  else if closes line && in_code_block st then
    Scan (match current_block st with
          | [] => code_blocks st
          | _ :: _ => code_blocks st ++ [join_newline (current_block st)]
          end)
         false (current_block st)
  else if in_code_block st then
    Scan (code_blocks st) true (current_block st ++ [line])
  else st.

Definition scan_lines (st : scan) (lines : list string) : scan :=
  fold_left scan_line lines st.

Definition _extract_code_blocks (text : string) : list string :=
  code_blocks (scan_lines scan_start (split_newline text)).

(** *** Fenced spans, as the specification describes them *)

(** One well-formed span with the prose that precedes it. *)
Record span := Span {
  sp_prose : list string;
  sp_open : string;
  sp_body : list string;
  sp_close : string
}.

Definition span_lines (sp : span) : list string :=
  sp_prose sp ++ sp_open sp :: sp_body sp ++ [sp_close sp].

Definition plain (line : string) : Prop := opens line = false ∧ closes line = false.

Record well_formed (sp : span) : Prop := WellFormed {
  wf_prose : Forall (λ l, opens l = false) (sp_prose sp);
  wf_open : opens (sp_open sp) = true;
  wf_body : Forall plain (sp_body sp);
  wf_close : closes (sp_close sp) = true
}.

(** What follows the last span: prose, then possibly an opened span that the
    end of the input leaves unterminated. *)
Record trailer := Trailer {
  tr_prose : list string;
  tr_unterminated : option (string * list string)
}.

Definition trailer_lines (tr : trailer) : list string :=
  tr_prose tr ++
  match tr_unterminated tr with
  | None => []
  | Some (o, body) => o :: body
  end.

Definition trailer_ok (tr : trailer) : Prop :=
  Forall (λ l, opens l = false) (tr_prose tr) ∧
  match tr_unterminated tr with
  | None => True
  | Some (o, body) => opens o = true ∧ Forall (λ l, closes l = false) body
  end.

(** [text] is made of the spans [sps] and the trailer [tr], in this order. *)
Definition layout (text : string) (sps : list span) (tr : trailer) : Prop :=
  split_newline text = concat (span_lines <$> sps) ++ trailer_lines tr ∧
  Forall well_formed sps ∧ trailer_ok tr.

Definition nonempty_body (sp : span) : bool :=
  match sp_body sp with [] => false | _ :: _ => true end.

Definition script_of (sp : span) : string := join_newline (sp_body sp).

End Extractor.

(** ** Python values *)

Module Py.
Import PyStr.

(** An exception object: its class and [str(e)].  Where a library call
    returns [exn + A], the exception is one derived from [Exception], which
    an [except Exception] clause catches. *)
Record exn := Exn {
  exn_class : string;
  exn_str : string
}.

(** What leaves a call that runs a script: an exception derived from
    [Exception], or one that is not ([SystemExit], [KeyboardInterrupt],
    [GeneratorExit]) and that an [except Exception] clause lets through. *)
Inductive thrown :=
| Ordinary (e : exn)
| Exiting (e : exn).

Inductive cell :=
| CellInt (z : Z)
| CellFloat (bits : N)
| CellStr (s : string)
| CellNaN.

(** The content of a [pandas.DataFrame] object at one moment: ordered
    columns with their dtype, and the rows.  The Table Registry maps a name
    to the content of the object it holds; what a script changes of that
    object in place is part of the outcome of [exec] below. *)
Record DataFrame := Frame {
  df_columns : list (string * string);
  df_rows : list (list cell)
}.

(** [df.shape] *)
Definition shape (df : DataFrame) : list nat :=
  [length (df_rows df); length (df_columns df)].

(** [df.columns.tolist()] *)
Definition columns (df : DataFrame) : list string := fst <$> df_columns df.

(** [df.head()] *)
Definition head (df : DataFrame) : DataFrame :=
  Frame (df_columns df) (take 5 (df_rows df)).

(** The objects a script namespace can hold.  [PyFloat] carries the bits of
    the double and is never computed with; [PyObject] is an instance of a
    class that derives from none of the classes [_execute_code] tests for
    (a function, a [Series], a numpy integer, ...). *)
Inductive pyval :=
| PyNone
| PyBool (b : bool)
| PyInt (z : Z)
| PyFloat (bits : N)
| PyStr (s : string)
| PyList (items : list pyval)
| PyTuple (items : list pyval)
| PyDict (items : list (pyval * pyval))
| PyDataFrame (df : DataFrame)
| PyNdarray (dims : list nat)
| PyModule (name : string)
| PyObject (cls : string).

Inductive pyclass :=
| Cint | Cfloat | Cstr | Cbool | Clist | Cdict | CDataFrame | Cndarray.

(** [isinstance(v, c)]; [bool] is a subclass of [int]. *)
Definition isinstance (v : pyval) (c : pyclass) : bool :=
  match v, c with
  | PyBool _, Cbool | PyBool _, Cint => true
  | PyInt _, Cint => true
  | PyFloat _, Cfloat => true
  | PyStr _, Cstr => true
  | PyList _, Clist => true
  | PyDict _, Cdict => true
  | PyDataFrame _, CDataFrame => true
  | PyNdarray _, Cndarray => true
  | _, _ => false
  end.

(** [isinstance(v, (c1, ..., cn))] *)
Definition isinstance_any (v : pyval) (cs : list pyclass) : bool :=
  existsb (isinstance v) cs.

(** [repr] of a tuple of integers, as an f-string prints [value.shape]. *)
Fixpoint repr_items (dims : list nat) : string :=
  match dims with
  | [] => ""
  | [d] => pretty d
  | d :: ds => pretty d +:+ ", " +:+ repr_items ds
  end.

Definition repr_shape (dims : list nat) : string :=
  match dims with
  | [d] => "(" +:+ pretty d +:+ ",)"
  | _ => "(" +:+ repr_items dims +:+ ")"
  end.

(** JSON-like values, for the [context] and [input_data] dictionaries whose
    entries the reporting and synthesis workers inspect dynamically. *)
Inductive dyn :=
| DNone
| DBool (b : bool)
| DInt (z : Z)
| DStr (s : string)
| DList (items : list dyn)
| DDict (items : list (string * dyn)).

(** An entry of the analysis [context]: a value found there, or the profile
    dictionary (shape, columns, dtypes, head, summary) that
    [CodeInterpreterAgent.process] stores for a loaded file; the summary is
    [{}] for a frame without rows. *)
Inductive ctx_entry :=
| Prior (v : dyn)
| Profile (df : DataFrame) (summary : option DataFrame).

Definition is_dict (v : dyn) : bool :=
  match v with DDict _ => true | _ => false end.

(** The plotting worker's [context]: the two keys the worker looks up, and
    the rest.  What is under ["dataframes"] is any value; the items under
    ["dataframes_info"] are as the analysis payload fills them. *)
Record plot_context := PlotContext {
  pc_dataframes : option dyn;
  pc_dataframes_info : option (list (string * dyn));
  pc_rest : list (string * dyn)
}.

(** A piece of a prompt: template text, or a value that an f-string (or
    [json.dumps]) formats in place. *)
Inductive fragment :=
| Lit (s : string)
| Fmt (v : dyn)
| FmtShape (dims : list nat)
| FmtFrame (df : DataFrame)
| FmtContext (entries : list (string * ctx_entry))
| FmtJson (context : plot_context).

Definition prompt := list fragment.

Definition nl : string := String newline EmptyString.

(** What [exec(code, exec_globals)] does: it runs to the end, leaving the
    bindings in [exec_globals]; or it raises an exception derived from
    [Exception]; or it raises one that is not, as [raise SystemExit] and
    [sys.exit()] do.  Each outcome carries [changed], the frame objects of
    [exec_globals] that the script changed in place
    ([df.drop(..., inplace=True)], [df[col] = ...]), under the name (each of
    the names) they had in [exec_globals] before the run and with their
    content after it, and what was written to standard output and standard
    error meanwhile. *)
Inductive exec_outcome :=
| Completed (globals : gmap string pyval) (changed : gmap string DataFrame)
    (stdout stderr : string)
| Raised (e : exn) (changed : gmap string DataFrame) (stdout stderr : string)
| Exited (e : exn) (changed : gmap string DataFrame) (stdout stderr : string).

Definition completed (outcome : exec_outcome) : bool :=
  match outcome with Completed _ _ _ _ => true | _ => false end.

Definition raised (outcome : exec_outcome) : bool :=
  match outcome with Raised _ _ _ _ => true | _ => false end.

Definition exited (outcome : exec_outcome) : bool :=
  match outcome with Exited _ _ _ _ => true | _ => false end.


(** The process around the workers: the files on disk and everything else a
    script or a library call can observe or change (clock, random generator,
    network). *)
Record World (A : Type) := MkWorld {
  files : gmap string (list byte);
  ambient : A
}.
Arguments MkWorld {A} _ _.
Arguments files {A} _.
Arguments ambient {A} _.

(** The collaborators the workers call but do not implement: the Python
    interpreter, the language model and pandas. *)
Class Runtime := {
  Ambient : Type;
  (** [exec(code, exec_globals)] *)
  py_exec : string → gmap string pyval → World Ambient → exec_outcome * World Ambient;
  (** [self.model.generate_content(prompt).text] *)
  generate_content : prompt → World Ambient → (exn + string) * World Ambient;
  (** [pd.read_csv(filepath)] *)
  read_csv : string → World Ambient → exn + DataFrame;
  (** [df.describe()] *)
  describe : DataFrame → exn + DataFrame;
  (** [pd.DataFrame(data)] on a dictionary *)
  pd_DataFrame : list (string * dyn) → exn + DataFrame;
  (** [traceback.format_exc()] while the exception is being handled *)
  format_exc : exn → string;
  (** [plt.close("all")] *)
  plt_close_all : Ambient → Ambient;
  (** [datetime.now().isoformat()]; reading the clock takes time *)
  now_isoformat : World Ambient → string * World Ambient
}.

Definition world `{Runtime} : Type := World Ambient.

End Py.

(** ** Dynamic operations on context values

    The plotting, reporting and synthesis workers look into [context] with
    [in], subscripts, [.get] and [.items], which raise on values of the
    wrong type. *)

Module Dynamic.
Import PyStr Py.

#[global] Instance raises_bind : MBind (sum exn) :=
  λ A B f m, match m with inl e => inl e | inr x => f x end.
#[global] Instance raises_ret : MRet (sum exn) := λ A x, inr x.

Definition TypeError (msg : string) : exn := Exn "TypeError" msg.
Definition KeyError (msg : string) : exn := Exn "KeyError" msg.
Definition AttributeError (msg : string) : exn := Exn "AttributeError" msg.

(** [type(v).__name__] *)
Definition type_name (v : dyn) : string :=
  match v with
  | DNone => "NoneType"
  | DBool _ => "bool"
  | DInt _ => "int"
  | DStr _ => "str"
  | DList _ => "list"
  | DDict _ => "dict"
  end.

(** The value under [key] in the items of a dictionary. *)
Fixpoint lookup_key (key : string) (items : list (string * dyn)) : option dyn :=
  match items with
  | [] => None
  | (k, v) :: rest => if decide (k = key) then Some v else lookup_key key rest
  end.

(** [d.get(key, default)] on a dictionary. *)
Definition dict_get (items : list (string * dyn)) (key : string) (dflt : dyn) : dyn :=
  default dflt (lookup_key key items).

Definition is_str (key : string) (v : dyn) : bool :=
  match v with DStr s => bool_decide (s = key) | _ => false end.

(** [key in v] *)
Definition py_in (key : string) (v : dyn) : exn + bool :=
  match v with
  | DDict items => inr (bool_decide (is_Some (lookup_key key items)))
  | DList items => inr (existsb (is_str key) items)
  | DStr s => inr (contains key s)
  | _ => inl (TypeError ("argument of type '" +:+ type_name v +:+ "' is not iterable"))
  end.

(** [v[key]] *)
Definition py_getitem (v : dyn) (key : string) : exn + dyn :=
  match v with
  | DDict items =>
      match lookup_key key items with
      | Some x => inr x
      | None => inl (KeyError ("'" +:+ key +:+ "'"))
      end
  | DList _ => inl (TypeError "list indices must be integers or slices, not str")
  | DStr _ => inl (TypeError "string indices must be integers, not 'str'")
  | _ => inl (TypeError ("'" +:+ type_name v +:+ "' object is not subscriptable"))
  end.

(** [v.get(key, default)] *)
Definition py_get (v : dyn) (key : string) (dflt : dyn) : exn + dyn :=
  match v with
  | DDict items => inr (dict_get items key dflt)
  | _ => inl (AttributeError ("'" +:+ type_name v +:+ "' object has no attribute 'get'"))
  end.

(** [v.items()] *)
Definition py_items (v : dyn) : exn + list (string * dyn) :=
  match v with
  | DDict items => inr items
  | _ => inl (AttributeError ("'" +:+ type_name v +:+ "' object has no attribute 'items'"))
  end.

(** [bool(v)] *)
Definition truthy (v : dyn) : bool :=
  match v with
  | DNone => false
  | DBool b => b
  | DInt z => negb (z =? 0)%Z
  | DStr s => negb (String.eqb s "")
  | DList items => match items with [] => false | _ => true end
  | DDict items => match items with [] => false | _ => true end
  end.

Fixpoint chars (s : string) : list dyn :=
  match s with
  | EmptyString => []
  | String c s' => DStr (String c EmptyString) :: chars s'
  end.

(** The items [for x in v] goes through. *)
Definition py_iter (v : dyn) : exn + list dyn :=
  match v with
  | DList items => inr items
  | DDict items => inr ((λ kv, DStr (fst kv)) <$> items)
  | DStr s => inr (chars s)
  | _ => inl (TypeError ("'" +:+ type_name v +:+ "' object is not iterable"))
  end.

(** [v > 0] *)
Definition py_gt_zero (v : dyn) : exn + bool :=
  match v with
  | DInt z => inr (0 <? z)%Z
  | DBool b => inr b
  | _ => inl (TypeError ("'>' not supported between instances of '"
                         +:+ type_name v +:+ "' and 'int'"))
  end.

(** [len(v)] *)
Definition py_len (v : dyn) : exn + nat :=
  match v with
  | DList items => inr (length items)
  | DDict items => inr (length items)
  | DStr s => inr (String.length s)
  | _ => inl (TypeError ("object of type '" +:+ type_name v +:+ "' has no len()"))
  end.

(** The loop both workers run over the script results:
    [if result.get("output"): prompt += f"{result['output']}\n"]. *)
Fixpoint outputs_prompt (results : list dyn) : exn + prompt :=
  match results with
  | [] => inr []
  | result :: rest =>
      output ← py_get result "output" DNone;
      piece ← (if truthy output
               then shown ← py_getitem result "output"; inr [Fmt shown; Lit nl]
               else inr []);
      more ← outputs_prompt rest;
      inr (piece ++ more)
  end.

End Dynamic.

(** ** [base_agent.py] *)

Module Base.

(** [AgentResult], generic in the shape of [data]; [next_agent] and
    [metadata] default to [None] and [{}]. *)
Record AgentResult (D : Type) := Envelope {
  success : bool;
  data : D;
  message : string;
  agent_name : string;
  next_agent : option string;
  metadata : list (string * bool)
}.
Arguments Envelope {D} _ _ _ _ _ _.
Arguments success {D} _.
Arguments data {D} _.
Arguments message {D} _.
Arguments agent_name {D} _.
Arguments next_agent {D} _.
Arguments metadata {D} _.

End Base.

(** ** [code_interpreter.py]: the analysis worker and its sandbox *)

Module CodeInterpreter.
Import PyStr Py Extractor Base.

Definition name : string := "CodeInterpreter".

(** The dictionary [_execute_code] returns; [traceback] is only set when the
    script raised. *)
Record ScriptResult := Result {
  sr_code : string;
  sr_success : bool;
  sr_output : string;
  sr_error : option string;
  sr_variables : gmap string pyval;
  sr_traceback : option string
}.

Record Input := MkInput {
  query : string;
  context : gmap string ctx_entry;
  files : list (string * string)
}.

(** The [data] field of the envelopes [process] returns. *)
Inductive analysis_data :=
| NoData
| AnalysisOnly (analysis : string) (dataframes_info : gmap string (list nat))
| Executed (analysis : string) (code_executed : list string)
    (results : list ScriptResult) (dataframes : gmap string DataFrame)
    (dataframes_info : gmap string (list nat * list string))
| Failed (error : string) (traceback : string).

Definition viz_keywords : list string :=
  ["plot"; "graph"; "chart"; "visualize"; "show"; "display"; "trend";
   "distribution"; "compare"; "correlation"].

Definition _needs_visualization (query : string) (results : list ScriptResult) : bool :=
  let query_lower := lower query in
  existsb (λ keyword, contains keyword query_lower) viz_keywords.

(** The query, lowercased, contains one of the keywords. *)
Definition mentions_plotting (query : string) : Prop :=
  ∃ keyword, keyword ∈ viz_keywords ∧
    ∃ before after, lower query = before +:+ keyword +:+ after.

(** [exec_globals] before the script runs: the library handles, then one
    binding per registered frame (a frame registered as [pd] or [np] takes
    that name).  The script is handed the registered objects themselves, not
    copies. *)
Definition initial_globals (dataframes : gmap string DataFrame) : gmap string pyval :=
  (PyDataFrame <$> dataframes) ∪ {[ "pd" := PyModule "pandas" ]} ∪ {[ "np" := PyModule "numpy" ]}.

(** [self.dataframes] once a script has run: the same names, bound to the
    same objects, those that the script changed in place with their new
    content. *)
Definition in_place (changed dataframes : gmap string DataFrame) : gmap string DataFrame :=
  map_imap (λ name df, Some (default df (changed !! name))) dataframes.

Definition harvestable (key : string) : bool :=
  negb (startswith "_" key) && negb (bool_decide (key ∈ ["pd"; "np"])).

(** One iteration of [for key, value in exec_globals.items()], on the pair
    of [result["variables"]] and [self.dataframes]. *)
Definition harvest_item (key : string) (value : pyval)
    (acc : gmap string pyval * gmap string DataFrame)
    : gmap string pyval * gmap string DataFrame :=
  if harvestable key then
    if isinstance_any value [Cint; Cfloat; Cstr; Cbool; Clist; Cdict] then
      (<[key := value]> acc.1, acc.2)
    else if isinstance value CDataFrame then
      match value with
      | PyDataFrame df =>
          (<[key := PyStr ("DataFrame" +:+ repr_shape (shape df))]> acc.1,
           <[key := df]> acc.2)
      | _ => acc
      end
    else if isinstance value Cndarray then
      match value with
      | PyNdarray dims => (<[key := PyStr ("Array" +:+ repr_shape dims)]> acc.1, acc.2)
      | _ => acc
      end
    else acc
  else acc.



(** *** The routing rule, as the specification words it

    To be compared with [_needs_visualization]: the ten plotting-intent
    keywords, spelled out, and what it is for a query to contain one of them
    whatever the case of its letters. *)

Definition plotting_keywords : list string :=
  ["plot"; "graph"; "chart"; "visualize"; "show"; "display"; "trend";
   "distribution"; "compare"; "correlation"].

(** [c] is the letter [k], or [k] is one of a..z and [c] is its capital. *)
Definition same_letter (c k : ascii) : Prop :=
  c = k ∨
  ((97 ≤ nat_of_ascii k)%nat ∧ (nat_of_ascii k ≤ 122)%nat ∧
   (nat_of_ascii c + 32 = nat_of_ascii k)%nat).

(** [word] spells [keyword] when the case of its letters is ignored. *)
Definition spells (word keyword : string) : Prop :=
  Forall2 same_letter (list_ascii_of_string word) (list_ascii_of_string keyword).

(** The query contains a plotting-intent keyword, in any case. *)
Definition asks_for_plot (query : string) : Prop :=
  ∃ keyword before word after,
    keyword ∈ plotting_keywords ∧ query = before +:+ word +:+ after ∧ spells word keyword.


Definition instructions : string :=
  join_newline
    [""; "Instructions:";
     "1. Provide a clear analysis of what needs to be done";
     "2. Write clean, executable Python code";
     "3. Use pandas, numpy for data analysis";
     "4. Include comments in your code";
     "5. Wrap code in ```python blocks";
     "6. Focus on statistical analysis, data cleaning, and insights";
     "7. Store results in variables that can be accessed later";
     "8. Don't create visualizations - that will be handled by another agent";
     "";
     "Example:";
     "```python";
     "# Calculate summary statistics";
     "summary = df.describe()";
     "print(summary)";
     "```";
     "";
     "Provide your analysis and code:";
     ""].

Definition frame_prompt (entry : string * DataFrame) : prompt :=
  let '(name, df) := entry in
  [Lit (nl +:+ name +:+ ":" +:+ nl);
   Lit "  Shape: "; FmtShape (shape df); Lit nl;
   Lit "  Columns: "; Fmt (DList (DStr <$> columns df)); Lit nl;
   Lit ("  Data types:" +:+ nl)]
  ++ concat ((λ col : string * string,
                [Lit ("    " +:+ col.1 +:+ ": " +:+ col.2 +:+ nl)]) <$> df_columns df)
  ++ [Lit (nl +:+ "First few rows:" +:+ nl); FmtFrame (head df); Lit nl].

Definition _build_prompt (query : string) (context : gmap string ctx_entry)
    (dataframes : gmap string DataFrame) : prompt :=
  [Lit ("You are a Python data analysis expert. Analyze the user's query and provide Python code to answer it."
        +:+ nl +:+ nl +:+ "User Query: " +:+ query +:+ nl +:+ nl)]
  ++ (if decide (dataframes = ∅) then []
      else Lit ("Available DataFrames:" +:+ nl)
           :: concat (frame_prompt <$> map_to_list dataframes))
  ++ (if decide (context = ∅) then []
      else [Lit (nl +:+ "Context from previous analysis:" +:+ nl);
            FmtContext (map_to_list context); Lit nl])
  ++ [Lit instructions].

Section Agent.
Context `{Runtime}.

(** The left side is an exception that leaves [_execute_code]: one that
    [except Exception] does not catch. *)
Definition _execute_code (code : string) (dataframes : gmap string DataFrame) (w : world)
    : (exn + ScriptResult) * gmap string DataFrame * world :=
  let exec_globals := initial_globals dataframes in
  match py_exec code exec_globals w with
  | (Completed globals changed stdout stderr, w') =>
      let harvested := map_fold harvest_item (∅, in_place changed dataframes) globals in
      (inr (Result code true stdout None harvested.1 None), harvested.2, w')
  | (Raised e changed stdout stderr, w') =>
      (inr (Result code false stderr (Some (exn_str e)) ∅ (Some (format_exc e))),
       in_place changed dataframes, w')
  | (Exited e changed stdout stderr, w') =>
      (inl e, in_place changed dataframes, w')
  end.

(** The body of the [try] inside [for filename, filepath in files.items()]:
    the exception, if any, with [self.dataframes] and [context] as the
    statements before it left them. *)
Definition load_one (filename filepath : string)
    (dataframes : gmap string DataFrame) (context : gmap string ctx_entry) (w : world)
    : option exn * gmap string DataFrame * gmap string ctx_entry :=
  match read_csv filepath w with
  | inl e => (Some e, dataframes, context)
  | inr df =>
      let dataframes' := <[filename := df]> dataframes in
      if (0 <? length (df_rows df))%nat then
        match describe df with
        | inl e => (Some e, dataframes', context)
        | inr summary =>
            (None, dataframes', <["df_" +:+ filename := Profile df (Some summary)]> context)
        end
      else (None, dataframes', <["df_" +:+ filename := Profile df None]> context)
  end.

(** The loading loop; it stops at the first file whose [try] body raises. *)
Fixpoint load_files (files : list (string * string))
    (dataframes : gmap string DataFrame) (context : gmap string ctx_entry) (w : world)
    : option (string * exn) * gmap string DataFrame * gmap string ctx_entry :=
  match files with
  | [] => (None, dataframes, context)
  | (filename, filepath) :: rest =>
      match load_one filename filepath dataframes context w with
      | (Some e, dataframes', context') => (Some (filename, e), dataframes', context')
      | (None, dataframes', context') => load_files rest dataframes' context' w
      end
  end.

(** [for i, code in enumerate(code_blocks)]; an exception that leaves
    [_execute_code] leaves the loop. *)
Fixpoint run_blocks (code_blocks : list string) (execution_results : list ScriptResult)
    (dataframes : gmap string DataFrame) (w : world)
    : (exn + list ScriptResult) * gmap string DataFrame * world :=
  match code_blocks with
  | [] => (inr execution_results, dataframes, w)
  | code :: rest =>
      match _execute_code code dataframes w with
      | (inl e, dataframes', w') => (inl e, dataframes', w')
      | (inr result, dataframes', w') =>
          run_blocks rest (execution_results ++ [result]) dataframes' w'
      end
  end.

(** The left side is an exception that leaves [process]: the one of a script
    that [except Exception] catches neither in [_execute_code] nor here. *)
Definition process (input : Input) (dataframes : gmap string DataFrame) (w : world)
    : (exn + AgentResult analysis_data) * gmap string DataFrame * world :=
  match load_files (files input) dataframes (context input) w with
  | (Some (filename, e), dataframes1, _) =>
      (inr (Envelope false NoData
              ("Error loading CSV file " +:+ filename +:+ ": " +:+ exn_str e)
              name None []),
       dataframes1, w)
  | (None, dataframes1, context1) =>
      let prompt := _build_prompt (query input) context1 dataframes1 in
      match generate_content prompt w with
      | (inl e, w1) =>
          (inr (Envelope false (Failed (exn_str e) (format_exc e))
                  ("Error during code interpretation: " +:+ exn_str e)
                  name None []),
           dataframes1, w1)
      | (inr response_text, w1) =>
          match _extract_code_blocks response_text with
          | [] =>
              (inr (Envelope true (AnalysisOnly response_text (shape <$> dataframes1))
                      "Analysis completed without code execution"
                      name None []),
               dataframes1, w1)
          | code_blocks =>
              match run_blocks code_blocks [] dataframes1 w1 with
              | (inl e, dataframes2, w2) => (inl e, dataframes2, w2)
              | (inr execution_results, dataframes2, w2) =>
                  let needs_visualization :=
                    _needs_visualization (query input) execution_results in
                  (inr (Envelope true
                          (Executed response_text code_blocks execution_results dataframes2
                             ((λ df, (shape df, columns df)) <$> dataframes2))
                          "Code execution completed successfully"
                          name
                          (Some (if needs_visualization then "VisualizationAgent"
                                 else "AnswerSynthesiser"))
                          [("needs_visualization", needs_visualization)]),
                   dataframes2, w2)
              end
          end
      end
  end.

(** The Registry after the files of [files] that parse have been stored, up
    to the first one that does not. *)
Fixpoint registered (files : list (string * string))
    (dataframes : gmap string DataFrame) (w : world) : gmap string DataFrame :=
  match files with
  | [] => dataframes
  | (filename, filepath) :: rest =>
      match read_csv filepath w with
      | inr df => registered rest (<[filename := df]> dataframes) w
      | inl _ => dataframes
      end
  end.

(** A file is ingested when it parses and, if it has rows, pandas can
    summarise it. *)
Definition ingests (file : string * string) (w : world) : Prop :=
  ∃ df, read_csv file.2 w = inr df ∧
        ((0 <? length (df_rows df))%nat = true → ∃ summary, describe df = inr summary).

(** What [exec] makes of each script of a batch that is run, in order from
    [dataframes] and [w]: the scripts up to the first one, if any, whose
    exception leaves the loop. *)
Fixpoint outcomes (code_blocks : list string)
    (dataframes : gmap string DataFrame) (w : world) : list exec_outcome :=
  match code_blocks with
  | [] => []
  | code :: rest =>
      let outcome := (py_exec code (initial_globals dataframes) w).1 in
      match _execute_code code dataframes w with
      | (inl _, _, _) => [outcome]
      | (inr _, dataframes', w') => outcome :: outcomes rest dataframes' w'
      end
  end.

End Agent.
End CodeInterpreter.

(** ** [base64]: the standard alphabet with padding (RFC 4648) *)

Module Base64.

Definition alphabet : list ascii :=
  list_ascii_of_string
    "ABCDEFGHIJKLMNOPQRSTUVWXYZabcdefghijklmnopqrstuvwxyz0123456789+/".

Definition pad : ascii := ascii_of_nat 61.

(** The character of a 6-bit group. *)
Definition digit (i : N) : ascii := nth (N.to_nat i) alphabet pad.

(** The 6-bit group of a character of the alphabet. *)
Definition value (c : ascii) : option N :=
  let n := N_of_ascii c in
  if ((65 <=? n) && (n <=? 90))%N then Some (n - 65)%N
  else if ((97 <=? n) && (n <=? 122))%N then Some (n - 71)%N
  else if ((48 <=? n) && (n <=? 57))%N then Some (n + 4)%N
  else if (n =? 43)%N then Some 62%N
  else if (n =? 47)%N then Some 63%N
  else None.

(** [base64.b64encode(data).decode("utf-8")] *)
Fixpoint b64encode (data : list byte) : string :=
  match data with
  | [] => EmptyString
  | [a] =>
      let n := (Byte.to_N a * 65536)%N in
      String (digit (n / 262144)) (String (digit (n / 4096 mod 64))
        (String pad (String pad EmptyString)))
  | [a; b] =>
      let n := (Byte.to_N a * 65536 + Byte.to_N b * 256)%N in
      String (digit (n / 262144)) (String (digit (n / 4096 mod 64))
        (String (digit (n / 64 mod 64)) (String pad EmptyString)))
  | a :: b :: c :: rest =>
      let n := (Byte.to_N a * 65536 + Byte.to_N b * 256 + Byte.to_N c)%N in
      String (digit (n / 262144)) (String (digit (n / 4096 mod 64))
        (String (digit (n / 64 mod 64)) (String (digit (n mod 64))
          (b64encode rest))))
  end.

Definition bytes_of (n : N) (count : nat) : option (list byte) :=
  match count with
  | 1%nat => b ← Byte.of_N (n / 65536); Some [b]
  | 2%nat => a ← Byte.of_N (n / 65536); b ← Byte.of_N (n / 256 mod 256); Some [a; b]
  | _ => a ← Byte.of_N (n / 65536); b ← Byte.of_N (n / 256 mod 256);
         c ← Byte.of_N (n mod 256); Some [a; b; c]
  end.

(** [base64.b64decode(text)] for a text of the alphabet in groups of four,
    the last one possibly padded; [None] where Python raises. *)
Fixpoint b64decode (text : string) : option (list byte) :=
  match text with
  | EmptyString => Some []
  | String c0 (String c1 (String c2 (String c3 rest))) =>
      v0 ← value c0; v1 ← value c1;
      if decide (c3 = pad) then
        if decide (rest = EmptyString) then
          if decide (c2 = pad) then bytes_of (v0 * 262144 + v1 * 4096) 1
          else v2 ← value c2; bytes_of (v0 * 262144 + v1 * 4096 + v2 * 64) 2
        else None
      else
        v2 ← value c2; v3 ← value c3;
        group ← bytes_of (v0 * 262144 + v1 * 4096 + v2 * 64 + v3) 3;
        tail ← b64decode rest;
        Some (group ++ tail)
  | _ => None
  end.

End Base64.

(** ** [visualization_agent.py]: the plotting worker *)

Module Visualization.
Import PyStr Py Dynamic Extractor Base Base64.

Definition name : string := "VisualizationAgent".

(** The path every plotting script is told to save its figure to. *)
Definition plot_path : string := "plot.png".

(** The dictionary [_create_visualization] returns. *)
Record Artifact := MkArtifact {
  viz_code : string;
  viz_success : bool;
  image_base64 : option string;
  viz_error : option string;
  description : string
}.

Record Input := MkInput {
  query : string;
  context : plot_context
}.

Inductive plot_data :=
| Plots (analysis : string) (visualizations : list Artifact)
    (visualization_count : option nat)
| Failed (error : string).

(** A JSON-like context value as the object a script finds bound. *)
Fixpoint to_pyval (v : dyn) : pyval :=
  match v with
  | DNone => PyNone
  | DBool b => PyBool b
  | DInt z => PyInt z
  | DStr s => PyStr s
  | DList items => PyList (map to_pyval items)
  | DDict items => PyDict (map (λ kv, (PyStr (fst kv), to_pyval (snd kv))) items)
  end.

(** The four library handles every plotting script finds bound. *)
Definition handles : gmap string pyval :=
  {[ "plt" := PyModule "matplotlib.pyplot"; "sns" := PyModule "seaborn";
     "pd" := PyModule "pandas"; "np" := PyModule "numpy" ]}.

Definition instructions : string :=
  join_newline
    [""; "Instructions:";
     "1. Analyze what visualizations would best answer the user's query";
     "2. Write Python code using matplotlib and seaborn";
     "3. Use the data provided in the context";
     "4. Create clear, informative visualizations";
     "5. Add proper titles, labels, and legends";
     "6. Wrap code in ```python blocks";
     "7. Save each plot using plt.savefig('plot.png', bbox_inches='tight', dpi=150)";
     "8. Close plots with plt.close() after saving";
     "";
     "Available data:";
     ""].

Definition example : string :=
  join_newline
    [""; "Example:";
     "```python";
     "import matplotlib.pyplot as plt";
     "import seaborn as sns";
     "";
     "# Create visualization";
     "plt.figure(figsize=(10, 6))";
     "# ... your plotting code ...";
     "plt.title('My Chart Title')";
     "plt.xlabel('X Label')";
     "plt.ylabel('Y Label')";
     "plt.savefig('plot.png', bbox_inches='tight', dpi=150)";
     "plt.close()";
     "```";
     "";
     "Provide your visualization code:";
     ""].

Definition _build_prompt (query : string) (context : plot_context) : prompt :=
  [Lit ("You are a data visualization expert using matplotlib and seaborn."
        +:+ nl +:+ nl +:+ "User Query: " +:+ query +:+ nl +:+ nl
        +:+ "Context from Code Interpreter:" +:+ nl);
   FmtJson context; Lit nl; Lit instructions]
  ++ match pc_dataframes_info context with
     | Some infos =>
         Lit (nl +:+ "DataFrames:" +:+ nl)
         :: concat ((λ entry : string * dyn,
                       [Lit ("  " +:+ entry.1 +:+ ": "); Fmt entry.2; Lit nl]) <$> infos)
     | None => []
     end
  ++ [Lit example].

Section Agent.
Context `{Runtime}.

(** One iteration of [for name, data in context["dataframes"].items()]:
    [pd.DataFrame(data)], which may raise, for a dictionary, and the value
    as it is otherwise. *)
Definition bind_entry (exec_globals : gmap string pyval) (entry : string * dyn)
    : exn + gmap string pyval :=
  match entry.2 with
  | DDict items =>
      df ← pd_DataFrame items;
      inr (<[entry.1 := PyDataFrame df]> exec_globals)
  | data => inr (<[entry.1 := to_pyval data]> exec_globals)
  end.

Fixpoint bind_entries (entries : list (string * dyn)) (exec_globals : gmap string pyval)
    : exn + gmap string pyval :=
  match entries with
  | [] => inr exec_globals
  | entry :: rest =>
      exec_globals' ← bind_entry exec_globals entry;
      bind_entries rest exec_globals'
  end.

(** [exec_globals] before the script runs: the four library handles, then
    the entries of [context["dataframes"]] in order.  These statements are
    not inside the [try] of [_create_visualization]. *)
Definition initial_globals (context : plot_context) : exn + gmap string pyval :=
  match pc_dataframes context with
  | Some tables =>
      entries ← py_items tables;
      bind_entries entries handles
  | None => inr handles
  end.

(** Standard output is not redirected here, and the namespace the script
    leaves is not looked at: only the file at [plot.png] is.  What is thrown
    (left side) leaves [_create_visualization]: an exception raised while
    the namespace is built, or one of the script that [except Exception]
    does not catch; [plt.close("all")] is not reached then. *)
Definition _create_visualization (code : string) (context : plot_context) (w : world)
    : (thrown + Artifact) * world :=
  match initial_globals context with
  | inl e => (inl (Ordinary e), w)
  | inr exec_globals =>
      match py_exec code exec_globals w with
      | (Completed _ _ _ _, w1) =>
          match files w1 !! plot_path with
          | Some img_data =>
              (inr (MkArtifact code true (Some (b64encode img_data)) None
                      "Visualization created successfully"),
               MkWorld (delete plot_path (files w1)) (plt_close_all (ambient w1)))
          | None =>
              (inr (MkArtifact code false None (Some "No plot file was created") ""),
               MkWorld (files w1) (plt_close_all (ambient w1)))
          end
      | (Raised e _ _ _, w1) =>
          (inr (MkArtifact code false None (Some (exn_str e)) ""),
           MkWorld (files w1) (plt_close_all (ambient w1)))
      | (Exited e _ _ _, w1) => (inl (Exiting e), w1)
      end
  end.

(** [for code in code_blocks], appending the successful results only. *)
Fixpoint render_blocks (code_blocks : list string) (context : plot_context)
    (visualizations : list Artifact) (w : world) : (thrown + list Artifact) * world :=
  match code_blocks with
  | [] => (inr visualizations, w)
  | code :: rest =>
      match _create_visualization code context w with
      | (inl t, w') => (inl t, w')
      | (inr viz_result, w') =>
          render_blocks rest context
            (if viz_success viz_result then visualizations ++ [viz_result]
             else visualizations)
            w'
      end
  end.

(** The left side is an exception that leaves [process]: the one of a script
    that [except Exception] does not catch. *)
Definition process (input : Input) (w : world) : (exn + AgentResult plot_data) * world :=
  let prompt := _build_prompt (query input) (context input) in
  match generate_content prompt w with
  | (inl e, w1) =>
      (inr (Envelope false (Failed (exn_str e))
              ("Error creating visualizations: " +:+ exn_str e) name None []),
       w1)
  | (inr response_text, w1) =>
      match _extract_code_blocks response_text with
      | [] =>
          (inr (Envelope true (Plots response_text [] None) "No visualizations needed"
                  name (Some "AnswerSynthesiser") []),
           w1)
      | code_blocks =>
          match render_blocks code_blocks (context input) [] w1 with
          | (inl (Ordinary e), w2) =>
              (inr (Envelope false (Failed (exn_str e))
                      ("Error creating visualizations: " +:+ exn_str e) name None []),
               w2)
          | (inl (Exiting e), w2) => (inl e, w2)
          | (inr visualizations, w2) =>
              (inr (Envelope true
                      (Plots response_text visualizations (Some (length visualizations)))
                      ("Created " +:+ pretty (length visualizations) +:+ " visualizations")
                      name (Some "AnswerSynthesiser")
                      [("has_visualizations", (0 <? length visualizations)%nat)]),
               w2)
          end
      end
  end.

(** Every artifact of the batch, failed ones included, in execution order:
    what [render_blocks] sees before it filters, up to the first script, if
    any, at which something is thrown. *)
Fixpoint all_artifacts (code_blocks : list string) (context : plot_context) (w : world)
    : list Artifact :=
  match code_blocks with
  | [] => []
  | code :: rest =>
      match _create_visualization code context w with
      | (inl _, _) => []
      | (inr viz_result, w') => viz_result :: all_artifacts rest context w'
      end
  end.

(** What [exec] makes of each plotting script of a batch that is run, in
    order. *)
Fixpoint plot_outcomes (code_blocks : list string) (context : plot_context) (w : world)
    : list exec_outcome :=
  match code_blocks with
  | [] => []
  | code :: rest =>
      match initial_globals context with
      | inl _ => []
      | inr exec_globals =>
          (py_exec code exec_globals w).1
          :: match _create_visualization code context w with
             | (inl _, _) => []
             | (inr _, w') => plot_outcomes rest context w'
             end
      end
  end.

End Agent.

End Visualization.

(** ** [presentation_agent.py]: the reporting worker *)

Module Presentation.
Import PyStr Py Base Dynamic.

Definition name : string := "PresentationAgent".

Record section := MkSection {
  sec_title : string;
  sec_content : list string
}.

Record metadata := MkMetadata {
  num_sections : nat;
  num_visualizations : nat;
  has_code_analysis : bool
}.

Record presentation := MkPresentation {
  title : string;
  generated_at : string;
  content : string;
  sections : list section;
  visualizations : dyn;
  meta : metadata
}.

Inductive report_data :=
| Report (presentation : presentation) (raw_text : string) (timestamp : string)
| Failed (error : string).

Definition instructions : string :=
  join_newline
    [""; "Instructions:";
     "1. Create a professional, structured report/presentation";
     "2. Use clear markdown formatting with headers";
     "3. Include the following sections:";
     "   - Executive Summary";
     "   - Key Findings";
     "   - Detailed Analysis";
     "   - Insights and Recommendations";
     "   - Conclusion";
     "4. Use bullet points and numbered lists where appropriate";
     "5. Highlight important metrics and statistics";
     "6. Make it easy to understand for both technical and non-technical audiences";
     "7. Reference visualizations where applicable";
     "";
     "Format your response in markdown with clear sections.";
     "";
     "Generate the presentation:";
     ""].

Definition analysis_part (context : dyn) : exn + prompt :=
  present ← py_in "code_interpreter_data" context;
  if present : bool then
    ci_data ← py_getitem context "code_interpreter_data";
    has_analysis ← py_in "analysis" ci_data;
    shown ← (if has_analysis : bool
             then analysis ← py_getitem ci_data "analysis";
                  inr [Fmt analysis; Lit (nl +:+ nl)]
             else inr []);
    has_results ← py_in "results" ci_data;
    results ← (if has_results : bool then py_getitem ci_data "results" else inr DNone);
    outputs ← (if has_results && truthy results
               then results ← py_getitem ci_data "results";
                    items ← py_iter results;
                    lines ← outputs_prompt items;
                    inr (Lit ("Execution Results:" +:+ nl) :: lines)
               else inr []);
    inr (Lit ("Analysis Results:" +:+ nl) :: shown ++ outputs)
  else inr [].

Definition visualization_part (context : dyn) : exn + prompt :=
  present ← py_in "visualization_data" context;
  if present : bool then
    viz_data ← py_getitem context "visualization_data";
    viz_count ← py_get viz_data "visualization_count" (DInt 0);
    positive ← py_gt_zero viz_count;
    if positive : bool then
      has_analysis ← py_in "analysis" viz_data;
      shown ← (if has_analysis : bool
               then analysis ← py_getitem viz_data "analysis"; inr [Fmt analysis; Lit nl]
               else inr []);
      inr ([Lit (nl +:+ "Visualizations Created: "); Fmt viz_count; Lit nl] ++ shown)
    else inr []
  else inr [].

Definition _build_prompt (query : dyn) (context : dyn) : exn + prompt :=
  analysis ← analysis_part context;
  visualization ← visualization_part context;
  inr ([Lit ("You are a presentation and report writing expert. Create a comprehensive, well-structured report."
             +:+ nl +:+ nl +:+ "User Query: "); Fmt query; Lit (nl +:+ nl)]
       ++ analysis ++ visualization ++ [Lit instructions]).

(** [s.replace(old, new)] for a non-empty [old]; [skip] counts the characters
    of a match still to be dropped. *)
Fixpoint replace_go (old new : string) (skip : nat) (s : string) : string :=
  match s with
  | EmptyString => EmptyString
  | String c s' =>
      match skip with
      | S k => replace_go old new k s'
      | O =>
          if startswith old s
          then new +:+ replace_go old new (String.length old - 1) s'
          else String c (replace_go old new 0 s')
      end
  end.

Definition replace (old new s : string) : string := replace_go old new 0 s.

(** The locals of the loop over the lines of the completion. *)
Record outline := MkOutline {
  ol_title : string;
  ol_sections : list section;
  ol_current : option section
}.

Definition outline_line (st : outline) (line : string) : outline :=
  if startswith "# " line then
    MkOutline (strip (replace "# " "" line)) (ol_sections st) (ol_current st)
  else if startswith "## " line then
    MkOutline (ol_title st)
      (match ol_current st with
       | Some current => ol_sections st ++ [current]
       | None => ol_sections st
       end)
      (Some (MkSection (strip (replace "## " "" line)) []))
  else
    match ol_current st with
    | Some current =>
        MkOutline (ol_title st) (ol_sections st)
          (Some (MkSection (sec_title current) (sec_content current ++ [line])))
    | None => st
    end.

Section Agent.
Context `{Runtime}.

(** The dictionary under construction when [_structure_presentation]
    returns or raises; the clock is read first. *)
Definition structure (text : string) (context : dyn) (generated : string)
    : exn + presentation :=
  present ← py_in "visualization_data" context;
  shown ← (if present : bool then
             viz_data ← py_getitem context "visualization_data";
             listed ← py_in "visualizations" viz_data;
             if listed : bool then py_getitem viz_data "visualizations" else inr (DList [])
           else inr (DList []));
  let st := fold_left outline_line (split_newline text)
              (MkOutline "Data Analysis Report" [] None) in
  let sections := match ol_current st with
                  | Some current => ol_sections st ++ [current]
                  | None => ol_sections st
                  end in
  count ← py_len shown;
  analysed ← py_in "code_interpreter_data" context;
  inr (MkPresentation (ol_title st) generated text sections shown
         (MkMetadata (length sections) count analysed)).

Definition _structure_presentation (text : string) (context : dyn) (w : world)
    : (exn + presentation) * world :=
  let '(generated, w1) := now_isoformat w in
  (structure text context generated, w1).

(** [input_data] is a dictionary; an exception of [_build_prompt], which is
    called before the [try], leaves [process] (left side of the sum). *)
Definition process (input_data : list (string * dyn)) (w : world)
    : (exn + AgentResult report_data) * world :=
  let query := dict_get input_data "query" (DStr "") in
  let context := dict_get input_data "context" (DDict []) in
  match _build_prompt query context with
  | inl e => (inl e, w)
  | inr prompt =>
      match generate_content prompt w with
      | (inl e, w1) =>
          (inr (Envelope false (Failed (exn_str e))
                  ("Error creating presentation: " +:+ exn_str e) name None []),
           w1)
      | (inr response_text, w1) =>
          match _structure_presentation response_text context w1 with
          | (inl e, w2) =>
              (inr (Envelope false (Failed (exn_str e))
                      ("Error creating presentation: " +:+ exn_str e) name None []),
               w2)
          | (inr presentation, w2) =>
              let '(timestamp, w3) := now_isoformat w2 in
              (inr (Envelope true (Report presentation response_text timestamp)
                      "Presentation generated successfully" name None []),
               w3)
          end
      end
  end.

End Agent.
End Presentation.

(** ** [answer_synthesiser.py]: the synthesis worker *)

Module Synthesiser.
Import PyStr Py Base Dynamic.

Definition name : string := "AnswerSynthesiser".

Inductive answer_data :=
| Answer (answer formatted_answer : string) (query : dyn) (has_context : bool)
| Failed (error : string).

Definition is_none (v : dyn) : bool :=
  match v with DNone => true | _ => false end.

Definition synthesis_instructions : string :=
  join_newline
    [""; "Instructions:";
     "1. Synthesize a clear, concise answer to the user's query";
     "2. Use markdown formatting for better readability";
     "3. Include key findings, insights, and statistics";
     "4. Structure your response with proper headings and bullet points";
     "5. If there are numerical results, present them clearly";
     "6. Be conversational but professional";
     "";
     "Provide your synthesized answer in markdown format:";
     ""].

Definition assistant_instructions : string :=
  join_newline
    [""; "Instructions:";
     "1. Provide a clear, accurate answer to the question";
     "2. Use markdown formatting for better readability";
     "3. Include examples if helpful";
     "4. Structure your response with headings and bullet points where appropriate";
     "5. Be conversational but professional";
     "6. If the question is about data analysis, explain that data should be uploaded first";
     "";
     "Provide your answer in markdown format:";
     ""].

Definition code_part (context : dyn) : exn + prompt :=
  ci_data ← py_get context "codeinterpreter_data" (DDict []);
  analysis ← py_get ci_data "analysis" DNone;
  shown ← (if truthy analysis
           then analysis ← py_getitem ci_data "analysis";
                inr [Fmt analysis; Lit (nl +:+ nl)]
           else inr []);
  results ← py_get ci_data "results" DNone;
  outputs ← (if truthy results
             then results ← py_getitem ci_data "results";
                  items ← py_iter results;
                  lines ← outputs_prompt items;
                  inr (Lit ("Execution Output:" +:+ nl) :: lines)
             else inr []);
  inr (Lit (nl +:+ "### Code Analysis Results:" +:+ nl) :: shown ++ outputs).

Definition viz_part (context : dyn) : exn + prompt :=
  viz_data ← py_get context "visualizationagent_data" (DDict []);
  viz_count ← py_get viz_data "visualization_count" (DInt 0);
  positive ← py_gt_zero viz_count;
  if positive : bool then
    inr [Lit (nl +:+ "### Visualizations:" +:+ nl); Fmt viz_count;
         Lit (" visualizations were created." +:+ nl)]
  else inr [].

Definition report_part (context : dyn) : exn + prompt :=
  pres_data ← py_get context "presentationagent_data" (DDict []);
  report ← py_get pres_data "presentation" DNone;
  if truthy report then
    report ← py_getitem pres_data "presentation";
    text ← py_get report "content" (DStr "");
    inr [Lit (nl +:+ "### Report:" +:+ nl); Fmt text; Lit nl]
  else inr [].

Definition _build_prompt (query : dyn) (context : dyn) : exn + prompt :=
  code ← py_get context "codeinterpreter_data" DNone;
  viz ← py_get context "visualizationagent_data" DNone;
  report ← py_get context "presentationagent_data" DNone;
  let has_code_results := negb (is_none code) in
  let has_viz := negb (is_none viz) in
  let has_presentation := negb (is_none report) in
  if has_code_results || has_viz || has_presentation then
    p1 ← (if has_code_results then code_part context else inr []);
    p2 ← (if has_viz then viz_part context else inr []);
    p3 ← (if has_presentation then report_part context else inr []);
    inr ([Lit ("You are an answer synthesizer agent. Your role is to create a clear, comprehensive response to the user's query based on the analysis performed by other agents."
               +:+ nl +:+ nl +:+ "User Query: "); Fmt query; Lit (nl +:+ nl)]
         ++ p1 ++ p2 ++ p3 ++ [Lit synthesis_instructions])
  else
    inr [Lit ("You are a helpful AI assistant. Answer the user's question clearly and comprehensively."
              +:+ nl +:+ nl +:+ "User Query: "); Fmt query; Lit nl;
         Lit assistant_instructions].

(** [bool(context.get(a) or context.get(b) or context.get(c))] *)
Definition has_context (context : dyn) : exn + bool :=
  code ← py_get context "codeinterpreter_data" DNone;
  if truthy code then inr true else
  viz ← py_get context "visualizationagent_data" DNone;
  if truthy viz then inr true else
  report ← py_get context "presentationagent_data" DNone;
  inr (truthy report).

Section Agent.
Context `{Runtime}.

(** The body of the [try]: every statement after the three [input_data.get]
    calls. *)
Definition attempt (query context : dyn) (w : world)
    : (exn + AgentResult answer_data) * world :=
  match _build_prompt query context with
  | inl e => (inl e, w)
  | inr prompt =>
      match generate_content prompt w with
      | (inl e, w1) => (inl e, w1)
      | (inr response_text, w1) =>
          match has_context context with
          | inl e => (inl e, w1)
          | inr flag =>
              (inr (Envelope true (Answer response_text response_text query flag)
                      "Answer synthesized successfully" name None []),
               w1)
          end
      end
  end.

Definition process (input_data : list (string * dyn)) (w : world)
    : (exn + AgentResult answer_data) * world :=
  let query := dict_get input_data "query" (DStr "") in
  let context := dict_get input_data "context" (DDict []) in
  match attempt query context w with
  | (inl e, w1) =>
      (inr (Envelope false (Failed (exn_str e))
              ("Error synthesizing answer: " +:+ exn_str e) name None []),
       w1)
  | (inr r, w1) => (inr r, w1)
  end.

End Agent.
End Synthesiser.

(** ** A small runtime to run the workers on

    Python, pandas and the model on a handful of inputs, each answered as the
    real collaborator answers it; used to evaluate the workers on concrete
    inputs. *)

Module Demo.
Import PyStr Py.

Definition sales : DataFrame :=
  Frame [("region", "object"); ("revenue", "int64"); ("year", "int64")]
        [[CellStr "north"; CellInt 10; CellInt 2023];
         [CellStr "south"; CellInt 20; CellInt 2024]].

Definition registry0 : gmap string DataFrame := {[ "sales" := sales ]}.

Definition png : list byte := [x89; x50; x4e; x47; x0d].

Definition save_script : string := "plt.savefig('plot.png')".
Definition save_then_fail_script : string :=
  "plt.savefig('plot.png')" +:+ nl +:+ "raise ValueError('late')".

(** A script that drops the first row of [sales] in place and then divides
    by zero, and one that leaves the interpreter. *)
Definition drop_then_fail_script : string :=
  "sales.drop(index=0, inplace=True)" +:+ nl +:+ "1/0".
Definition exit_script : string := "raise SystemExit".

(** [exec] puts the dictionary of the [builtins] module under
    [__builtins__] (its entries are left out here). *)
Definition with_builtins (globals : gmap string pyval) : gmap string pyval :=
  <["__builtins__" := PyDict []]> globals.

(** Saving the current figure: the bytes of the image go to [plot.png]. *)
Definition savefig (w : World unit) : World unit :=
  MkWorld (<["plot.png" := png]> (files w)) (ambient w).

(** [exec] on eight scripts; any other text stands for a script that binds
    nothing, changes nothing and prints nothing. *)
Definition exec (code : string) (globals : gmap string pyval) (w : World unit)
    : exec_outcome * World unit :=
  if String.eqb code "total = 1" then
    (Completed (<["total" := PyInt 1]> (with_builtins globals)) ∅ "" "", w)
  else if String.eqb code "print(6 * 7)" then
    (Completed (with_builtins globals) ∅ ("42" +:+ nl) "", w)
  else if String.eqb code "1/0" then
    (Raised (Exn "ZeroDivisionError" "division by zero") ∅ "" "", w)
  else if String.eqb code "top = sales.head(1)" then
    match globals !! "sales" with
    | Some (PyDataFrame df) =>
        (Completed (<["top" := PyDataFrame (Frame (df_columns df) (take 1 (df_rows df)))]>
                      (with_builtins globals)) ∅ "" "", w)
    | _ => (Raised (Exn "NameError" "name 'sales' is not defined") ∅ "" "", w)
    end
  else if String.eqb code drop_then_fail_script then
    match globals !! "sales" with
    | Some (PyDataFrame df) =>
        (Raised (Exn "ZeroDivisionError" "division by zero")
           {[ "sales" := Frame (df_columns df) (drop 1 (df_rows df)) ]} "" "", w)
    | _ => (Raised (Exn "NameError" "name 'sales' is not defined") ∅ "" "", w)
    end
  else if String.eqb code exit_script then
    (Exited (Exn "SystemExit" "") ∅ "" "", w)
  else if String.eqb code save_script then
    match globals !! "plt" with
    | Some _ => (Completed (with_builtins globals) ∅ "" "", savefig w)
    | None => (Raised (Exn "NameError" "name 'plt' is not defined") ∅ "" "", w)
    end
  else if String.eqb code save_then_fail_script then
    match globals !! "plt" with
    | Some _ => (Raised (Exn "ValueError" "late") ∅ "" "", savefig w)
    | None => (Raised (Exn "NameError" "name 'plt' is not defined") ∅ "" "", w)
    end
  else (Completed (with_builtins globals) ∅ "" "", w).

(** [pd.read_csv]: one readable file, one that does not parse. *)
Definition csv (filepath : string) (w : World unit) : exn + DataFrame :=
  if String.eqb filepath "uploads/sales.csv" then inr sales
  else if String.eqb filepath "uploads/broken.csv" then
    inl (Exn "ParserError" "Error tokenizing data")
  else inl (Exn "FileNotFoundError" ("No such file or directory: '" +:+ filepath +:+ "'")).

Definition cell_of (v : dyn) : cell :=
  match v with
  | DInt z => CellInt z
  | DStr s => CellStr s
  | _ => CellNaN
  end.

Definition column_of (v : dyn) : option (list cell) :=
  match v with
  | DList items => Some (cell_of <$> items)
  | _ => None
  end.

Definition dtype_of (cells : list cell) : string :=
  if forallb (λ c, match c with CellInt _ => true | _ => false end) cells
  then "int64" else "object".

(** [pd.DataFrame(data)] on a dictionary whose values are lists of integers
    and strings: a column per key, and [ValueError] when the lists differ in
    length.  Any other dictionary stands for one made of scalars only. *)
Definition frame_of_dict (items : list (string * dyn)) : exn + DataFrame :=
  match mapM column_of items.*2 with
  | None => inl (Exn "ValueError" "If using all scalar values, you must pass an index")
  | Some cols =>
      let rows := default 0%nat (length <$> List.head cols) in
      if forallb (λ col, (length col =? rows)%nat) cols then
        inr (Frame (zip items.*1 (dtype_of <$> cols))
               ((λ i, (λ col, default CellNaN (col !! i)) <$> cols) <$> seq 0 rows))
      else inl (Exn "ValueError" "All arrays must be of the same length")
  end.

(** The runtime whose model answers every prompt with [reply]. *)
Definition runtime (reply : exn + string) : Runtime := {|
  Ambient := unit;
  py_exec := exec;
  generate_content := λ _ w, (reply, w);
  read_csv := csv;
  describe := λ df, inr (Frame (df_columns df) []);
  pd_DataFrame := frame_of_dict;
  format_exc := λ e, "Traceback (most recent call last): " +:+ exn_class e +:+ ": " +:+ exn_str e;
  plt_close_all := λ a, a;
  now_isoformat := λ w, ("2025-01-01T00:00:00", w)
|}.

Definition world0 : World unit := MkWorld ∅ ().

(** A completion with two scripts, the first of which divides by zero. *)
Definition two_scripts : string :=
  join_newline ["Here is the analysis."; "```python"; "1/0"; "```";
                "and then"; "```python"; "total = 1"; "```"; "Done."].

(** A completion with two plotting scripts; only the second saves a figure. *)
Definition two_plots : string :=
  join_newline ["```python"; "1/0"; "```"; "```python"; save_script; "```"].

(** Three uploads; the second one does not parse. *)
Definition upload : CodeInterpreter.Input :=
  CodeInterpreter.MkInput "Summarise the uploads" ∅
    [("sales.csv", "uploads/sales.csv"); ("broken.csv", "uploads/broken.csv");
     ("late.csv", "uploads/sales.csv")].

Definition average_query : CodeInterpreter.Input :=
  CodeInterpreter.MkInput "What is the average revenue" ∅ [].

Definition trend_query : CodeInterpreter.Input :=
  CodeInterpreter.MkInput "Show the TREND of revenue over time" ∅ [].

(** A completion with two scripts, the first of which leaves the
    interpreter. *)
Definition exit_then_total : string :=
  join_newline ["```python"; exit_script; "```"; "```python"; "total = 1"; "```"].

(** The table [sales] as a dictionary of columns. *)
Definition sales_dict : dyn :=
  DDict [("region", DList [DStr "north"; DStr "south"]);
         ("revenue", DList [DInt 10; DInt 20]);
         ("year", DList [DInt 2023; DInt 2024])].

(** A plotting context with the table [sales] handed over as a dictionary,
    and a label that is not one. *)
Definition plot_context0 : plot_context :=
  PlotContext (Some (DDict [("sales", sales_dict); ("unit", DStr "kEUR")])) None [].

Definition plot_query : Visualization.Input :=
  Visualization.MkInput "Plot revenue by region" plot_context0.

(** A plotting context whose table has columns of unequal length. *)
Definition ragged_context : plot_context :=
  PlotContext
    (Some (DDict [("sales", DDict [("region", DList [DStr "north"; DStr "south"]);
                                   ("revenue", DList [DInt 10])])]))
    None [].

Definition ragged_query : Visualization.Input :=
  Visualization.MkInput "Plot revenue by region" ragged_context.

(** The namespace of a plotting script under [plot_context0]. *)
Definition plot_globals0 : gmap string pyval :=
  <["unit" := PyStr "kEUR"]> (<["sales" := PyDataFrame sales]> Visualization.handles).

(** A reporting request whose context carries the payload of an analysis
    that failed while loading its file, which is [None]. *)
Definition report_request : list (string * dyn) :=
  [("query", DStr "Write a report");
   ("context", DDict [("code_interpreter_data", DNone)])].

(** A request whose context is [None]. *)
Definition bare_request : list (string * dyn) :=
  [("query", DStr "Write a report"); ("context", DNone)].

Import Extractor.

(** Prose, a two-line script, prose, an empty span, and an unterminated span. *)
Definition sample_text : string :=
  join_newline ["Intro"; "  ```python"; "x = 1"; "print(x)"; "```"; "then";
                "```python"; "```"; "```python"; "y = 2"].

Definition sample_spans : list span :=
  [Span ["Intro"] "  ```python" ["x = 1"; "print(x)"] "```";
   Span ["then"] "```python" [] "```"].

Definition sample_trailer : trailer := Trailer [] (Some ("```python", ["y = 2"])).

End Demo.

(** ** [main.py]: how a session context is keyed

    Only the loop that stores the workers' payloads in the session is
    modelled; the rest of the handlers runs inside the web framework and
    calls the orchestrator. *)

Module Session.
Import PyStr Py.

(** [f"{agent_name.lower()}_data"] *)
Definition session_key (agent_name : string) : string :=
  lower agent_name +:+ "_data".

(** [d[key] = value] on the items of a dictionary. *)
Fixpoint dict_set (key : string) (value : dyn) (items : list (string * dyn))
    : list (string * dyn) :=
  match items with
  | [] => [(key, value)]
  | (k, v) :: rest =>
      if decide (k = key) then (key, value) :: rest
      else (k, v) :: dict_set key value rest
  end.

(** [if results["success"] and results.get("agent_results"):] followed by
    the loop over [results["agent_results"].items()], each item a worker
    name with the [data] of its envelope. *)
Definition update_context (success : bool) (agent_results : list (string * dyn))
    (context : list (string * dyn)) : list (string * dyn) :=
  if success && match agent_results with [] => false | _ :: _ => true end then
    fold_left (λ ctx result, dict_set (session_key (fst result)) (snd result) ctx)
      agent_results context
  else context.

(** The names the four workers give themselves. *)
Definition worker_names : list string :=
  [CodeInterpreter.name; Visualization.name; Presentation.name; Synthesiser.name].

End Session.

(** ** Notions used to state properties of the workers *)

Module Notions.
Import PyStr Py Base Extractor Dynamic.

(** The payload is missing: [data=None]. *)
Definition is_missing (d : CodeInterpreter.analysis_data) : bool :=
  match d with CodeInterpreter.NoData => true | _ => false end.

(** The payload is an error description: [{"error": ..., "traceback": ...}]. *)
Definition is_error (d : CodeInterpreter.analysis_data) : bool :=
  match d with CodeInterpreter.Failed _ _ => true | _ => false end.

Definition is_executed (d : CodeInterpreter.analysis_data) : bool :=
  match d with
  | CodeInterpreter.Executed _ _ _ _ _ => true
  | _ => false
  end.

(** A line that sets the title, a line that starts a section. *)
Definition is_title (line : string) : bool := startswith "# " line.
Definition is_section (line : string) : bool := startswith "## " line.

(** A section heading with the lines up to the next section heading. *)
Record heading_block := HeadingBlock {
  hb_heading : string;
  hb_body : list string
}.

Definition block_lines (b : heading_block) : list string :=
  hb_heading b :: hb_body b.

Definition block_ok (b : heading_block) : Prop :=
  is_section (hb_heading b) = true ∧ Forall (λ l, is_section l = false) (hb_body b).

(** The section a heading block becomes: title lines inside it are not
    part of its content. *)
Definition section_of (b : heading_block) : Presentation.section :=
  Presentation.MkSection
    (strip (Presentation.replace "## " "" (hb_heading b)))
    (List.filter (λ l, negb (is_title l)) (hb_body b)).

(** The title a list of lines gives: that of its last title line. *)
Definition title_of (lines : list string) : string :=
  match last (List.filter is_title lines) with
  | Some line => strip (Presentation.replace "# " "" line)
  | None => "Data Analysis Report"
  end.

(** The sections of the outline once the open one is closed. *)
Definition closed_sections (st : Presentation.outline) : list Presentation.section :=
  Presentation.ol_sections st ++
  match Presentation.ol_current st with Some c => [c] | None => [] end.

(** What the prompt shows of one script result. *)
Definition shown_output (result : dyn) : prompt :=
  match result with
  | DDict items =>
      if truthy (dict_get items "output" DNone)
      then [Fmt (dict_get items "output" DNone); Lit nl]
      else []
  | _ => []
  end.

(** A line as [split("\n")] produces them: without a line break. *)
Definition no_newline (line : string) : Prop :=
  Forall (λ c, c ≠ newline) (list_ascii_of_string line).

(** What the scan keeps: lines without markers, scripts made of such lines. *)
Definition clean_script (script : string) : Prop :=
  ∃ lines, lines ≠ [] ∧ script = join_newline lines ∧
           Forall (λ l, plain l ∧ no_newline l) lines.

(** The reporting prompt with neither analysis nor visualization part. *)
Definition bare_report_prompt (query : dyn) : prompt :=
  [Lit ("You are a presentation and report writing expert. Create a comprehensive, well-structured report."
        +:+ nl +:+ nl +:+ "User Query: "); Fmt query; Lit (nl +:+ nl);
   Lit Presentation.instructions].

End Notions.

(** ** More inputs to run the workers on *)

Module Samples.
Import PyStr Py.

(** A script that drops the first row of [sales] in place and then deletes
    the binding. *)
Definition drop_then_del_script : string :=
  "sales.drop(index=0, inplace=True)" +:+ nl +:+ "del sales".

(** [Demo.exec] with three more scripts: one deletes the binding [sales],
    one rebinds it to a number, and [drop_then_del_script]. *)
Definition exec (code : string) (globals : gmap string pyval) (w : World unit)
    : exec_outcome * World unit :=
  if String.eqb code "del sales" then
    match globals !! "sales" with
    | Some _ => (Completed (delete "sales" (Demo.with_builtins globals)) ∅ "" "", w)
    | None => (Raised (Exn "NameError" "name 'sales' is not defined") ∅ "" "", w)
    end
  else if String.eqb code "sales = 5" then
    (Completed (<["sales" := PyInt 5]> (Demo.with_builtins globals)) ∅ "" "", w)
  else if String.eqb code drop_then_del_script then
    match globals !! "sales" with
    | Some (PyDataFrame df) =>
        (Completed (delete "sales" (Demo.with_builtins globals))
           {[ "sales" := Frame (df_columns df) (drop 1 (df_rows df)) ]} "" "", w)
    | _ => (Raised (Exn "NameError" "name 'sales' is not defined") ∅ "" "", w)
    end
  else Demo.exec code globals w.

Definition runtime (reply : exn + string) : Runtime := {|
  Ambient := unit;
  py_exec := exec;
  generate_content := λ _ w, (reply, w);
  read_csv := Demo.csv;
  describe := λ df, inr (Frame (df_columns df) []);
  pd_DataFrame := Demo.frame_of_dict;
  format_exc := λ e, exn_class e +:+ ": " +:+ exn_str e;
  plt_close_all := λ a, a;
  now_isoformat := λ w, ("2025-01-01T00:00:00", w)
|}.

(** A completion without any script. *)
Definition prose_only : string :=
  join_newline ["The data has two rows."; "```"; "No code is needed."].

(** A completion whose first fence is opened again before it is closed. *)
Definition reopened : string :=
  join_newline ["```python"; "draft = 1"; "```python"; "final = 2"; "```"].

Definition two_uploads : list (string * string) :=
  [("sales.csv", "uploads/sales.csv"); ("copy.csv", "uploads/sales.csv")].

(** A report with text before its first section and a title inside one. *)
Definition report_text : string :=
  join_newline ["# Draft"; "preamble"; "## Findings"; "a"; "# Final"; "b";
                "## Conclusion"; "c"].

Definition report_blocks : list Notions.heading_block :=
  [Notions.HeadingBlock "## Findings" ["a"; "# Final"; "b"];
   Notions.HeadingBlock "## Conclusion" ["c"]].

(** Script results as they reach a prompt: one without output, two with. *)
Definition script_results : list dyn :=
  [DDict [("code", DStr "x = 1"); ("output", DStr "")];
   DDict [("output", DStr "42")];
   DDict [("success", DBool false)];
   DDict [("output", DStr "done")]].

(** What a run stored for two workers. *)
Definition stored_results : list (string * dyn) :=
  [("CodeInterpreter", DDict [("analysis", DStr "two rows")]);
   ("VisualizationAgent", DDict [("visualization_count", DInt 1)])].

End Samples.

(** * Properties *)

(** ** Strings *)

Module PyStrFacts.
Import PyStr.

Lemma append_cons (c : ascii) (s t : string) :
  String c s +:+ t = String c (s +:+ t).
Proof. reflexivity. Qed.

Lemma append_nil (t : string) : EmptyString +:+ t = t.
Proof. reflexivity. Qed.

Lemma startswith_spec (p s : string) :
  startswith p s = true ↔ ∃ rest, s = p +:+ rest.
Proof.
  revert s. induction p as [|a p IH]; intros s; simpl.
  - split; [intros _; by exists s | done].
  - destruct s as [|b s].
    + split; [done | intros [rest Hr]; by rewrite append_cons in Hr].
    + destruct (decide (a = b)) as [->|Hne].
      * rewrite IH. split; intros [rest Hr]; exists rest.
        -- by rewrite append_cons, Hr.
        -- rewrite append_cons in Hr. congruence.
      * split; [done | intros [rest Hr]; rewrite append_cons in Hr; congruence].
Qed.

(** The boolean test [sub in s] finds exactly the occurrences of [sub]. *)
Lemma contains_spec (sub s : string) :
  contains sub s = true ↔ ∃ before after, s = before +:+ sub +:+ after.
Proof.
  induction s as [|c s IH]; simpl.
  - rewrite orb_false_r, startswith_spec. split.
    + intros [rest Hr]. by exists EmptyString, rest.
    + intros [before [after Hs]]. destruct before as [|b before].
      * by exists after.
      * by rewrite append_cons in Hs.
  - rewrite orb_true_iff, startswith_spec, IH. split.
    + intros [[rest Hr] | [before [after Hs]]].
      * by exists EmptyString, rest.
      * exists (String c before), after. by rewrite append_cons, Hs.
    + intros [before [after Hs]]. destruct before as [|b before].
      * left. by exists after.
      * right. exists before, after. rewrite append_cons in Hs. congruence.
Qed.

Lemma lower_app (a b : string) : lower (a +:+ b) = lower a +:+ lower b.
Proof.
  induction a as [|c a IH]; [done|].
  rewrite append_cons. simpl. by rewrite IH, append_cons.
Qed.

(** Lowercasing keeps the length, so a lowercased text splits where the
    text does. *)
Lemma lower_split (s a b : string) :
  lower s = a +:+ b → ∃ s1 s2, s = s1 +:+ s2 ∧ lower s1 = a ∧ lower s2 = b.
Proof.
  revert s. induction a as [|c a IH]; intros s Hs.
  - by exists EmptyString, s.
  - rewrite append_cons in Hs. destruct s as [|c0 s]; [done|].
    simpl in Hs. injection Hs as Hc Hs.
    destruct (IH s Hs) as (s1 & s2 & -> & H1 & H2).
    exists (String c0 s1), s2. simpl. by rewrite Hc, H1.
Qed.

(** On a letter of a..z, [str.lower] gives it exactly for itself and for
    its capital. *)
Lemma lower_char_letter (c k : ascii) :
  (97 ≤ nat_of_ascii k)%nat → (nat_of_ascii k ≤ 122)%nat →
  lower_char c = k ↔
  c = k ∨ ((97 ≤ nat_of_ascii k)%nat ∧ (nat_of_ascii k ≤ 122)%nat ∧
           (nat_of_ascii c + 32 = nat_of_ascii k)%nat).
Proof.
  intros Hlo Hhi. unfold lower_char.
  pose proof (nat_ascii_bounded c) as Hc.
  destruct (_ || _) eqn:Hup.
  - rewrite orb_true_iff, !andb_true_iff, negb_true_iff, !Nat.leb_le, Nat.eqb_neq in Hup.
    split.
    + intros <-. right. rewrite nat_ascii_embedding in * by lia. lia.
    + intros [<-|(_ & _ & Hk)]; [lia|].
      rewrite Hk. apply ascii_nat_embedding.
  - rewrite orb_false_iff, !andb_false_iff, negb_false_iff, !Nat.leb_gt, Nat.eqb_eq in Hup.
    split; [by left|]. intros [->|(_ & _ & Hk)]; [done|]. lia.
Qed.

End PyStrFacts.

(** ** The script extractor *)

Module ExtractorFacts.
Import PyStr Extractor Demo.

Lemma closes_not_opens (line : string) : closes line = true → opens line = false.
Proof.
  unfold closes, opens. intros Hc. apply String.eqb_eq in Hc. by rewrite Hc.
Qed.

Lemma scan_lines_app (st : scan) (l1 l2 : list string) :
  scan_lines st (l1 ++ l2) = scan_lines (scan_lines st l1) l2.
Proof. apply fold_left_app. Qed.

Lemma scan_lines_cons (st : scan) (l : string) (ls : list string) :
  scan_lines st (l :: ls) = scan_lines (scan_line st l) ls.
Proof. reflexivity. Qed.

Lemma scan_line_open (st : scan) (l : string) :
  opens l = true → scan_line st l = Scan (code_blocks st) true [].
Proof. intros Ho. unfold scan_line. by rewrite Ho. Qed.

Lemma scan_line_outside (blocks cur : list string) (l : string) :
  opens l = false → scan_line (Scan blocks false cur) l = Scan blocks false cur.
Proof. intros Ho. unfold scan_line. rewrite Ho. simpl. by rewrite andb_false_r. Qed.

Lemma scan_line_inside (blocks cur : list string) (l : string) :
  opens l = false → closes l = false →
  scan_line (Scan blocks true cur) l = Scan blocks true (cur ++ [l]).
Proof. intros Ho Hc. unfold scan_line. by rewrite Ho, Hc. Qed.

Lemma scan_line_close (blocks cur : list string) (l : string) :
  closes l = true →
  scan_line (Scan blocks true cur) l =
  Scan (match cur with [] => blocks | _ :: _ => blocks ++ [join_newline cur] end) false cur.
Proof. intros Hc. unfold scan_line. by rewrite (closes_not_opens _ Hc), Hc. Qed.

(** Outside a span, a line that opens nothing changes nothing. *)
Lemma scan_prose (blocks cur : list string) (prose : list string) :
  Forall (λ l, opens l = false) prose →
  scan_lines (Scan blocks false cur) prose = Scan blocks false cur.
Proof.
  induction 1 as [|l prose Hl _ IH]; [done|].
  by rewrite scan_lines_cons, scan_line_outside.
Qed.

(** Inside a span, plain lines pile up in [current_block]. *)
Lemma scan_body (blocks cur : list string) (body : list string) :
  Forall plain body →
  scan_lines (Scan blocks true cur) body = Scan blocks true (cur ++ body).
Proof.
  intros Hb. revert cur. induction Hb as [|l body [Ho Hc] _ IH]; intros cur.
  - by rewrite app_nil_r.
  - rewrite scan_lines_cons, scan_line_inside, IH by done. by rewrite <- app_assoc.
Qed.

(** One whole span adds its script, unless its body has no line. *)
Lemma scan_span (blocks cur : list string) (sp : span) :
  well_formed sp →
  scan_lines (Scan blocks false cur) (span_lines sp) =
  Scan (blocks ++ if nonempty_body sp then [script_of sp] else []) false (sp_body sp).
Proof.
  intros [Hp Ho Hb Hc]. unfold span_lines.
  rewrite scan_lines_app, scan_prose, scan_lines_cons, scan_line_open by done.
  rewrite scan_lines_app, scan_body by done. simpl.
  rewrite scan_line_close by done.
  unfold nonempty_body, script_of. destruct (sp_body sp); [by rewrite app_nil_r | done].
Qed.

Lemma scan_spans (blocks cur : list string) (sps : list span) :
  Forall well_formed sps →
  ∃ cur', scan_lines (Scan blocks false cur) (concat (span_lines <$> sps)) =
          Scan (blocks ++ (script_of <$> List.filter nonempty_body sps)) false cur'.
Proof.
  intros Hwf. revert blocks cur. induction Hwf as [|sp sps Hsp _ IH]; intros blocks cur.
  - exists cur. simpl. by rewrite app_nil_r.
  - rewrite fmap_cons. simpl concat. rewrite scan_lines_app, scan_span by done.
    destruct (IH (blocks ++ if nonempty_body sp then [script_of sp] else []) (sp_body sp))
      as [cur' Hcur'].
    exists cur'. rewrite Hcur'. f_equal.
    rewrite <- app_assoc. simpl. by destruct (nonempty_body sp).
Qed.

(** An opened span that is never closed adds no script. *)
Lemma scan_unterminated (blocks cur : list string) (body : list string) :
  Forall (λ l, closes l = false) body →
  code_blocks (scan_lines (Scan blocks true cur) body) = blocks.
Proof.
  intros Hb. revert cur. induction Hb as [|l body Hc _ IH]; intros cur; [done|].
  rewrite scan_lines_cons. destruct (opens l) eqn:Ho.
  - rewrite scan_line_open by done. apply IH.
  - rewrite scan_line_inside by done. apply IH.
Qed.

Lemma scan_trailer (blocks cur : list string) (tr : trailer) :
  trailer_ok tr →
  code_blocks (scan_lines (Scan blocks false cur) (trailer_lines tr)) = blocks.
Proof.
  intros [Hp Hu]. unfold trailer_lines. rewrite scan_lines_app, scan_prose by done.
  destruct (tr_unterminated tr) as [[o body]|]; [|done].
  destruct Hu as [Ho Hb]. rewrite scan_lines_cons, scan_line_open by done.
  by apply scan_unterminated.
Qed.

(** The scripts of a laid-out text: one per span whose body has a line. *)
Lemma extract_layout (text : string) (sps : list span) (tr : trailer) :
  layout text sps tr →
  _extract_code_blocks text = script_of <$> List.filter nonempty_body sps.
Proof.
  intros (Hsplit & Hwf & Htr). unfold _extract_code_blocks. rewrite Hsplit.
  unfold scan_start. rewrite scan_lines_app.
  destruct (scan_spans [] [] sps Hwf) as [cur' Hcur'].
  rewrite Hcur'. simpl. by apply scan_trailer.
Qed.

(** When every span has a body, the scripts are the bodies of all the
    spans. *)
Lemma extract_all_spans (text : string) (sps : list span) (tr : trailer) :
  layout text sps tr →
  Forall (λ sp, nonempty_body sp = true) sps →
  _extract_code_blocks text = script_of <$> sps ∧
  length (_extract_code_blocks text) = length sps.
Proof.
  intros Hlay Hne. rewrite (extract_layout _ _ _ Hlay).
  assert (List.filter nonempty_body sps = sps) as ->.
  { clear -Hne. induction Hne as [|sp sps Hsp _ IH]; [done|]. simpl. by rewrite Hsp, IH. }
  split; [done | by rewrite length_fmap].
Qed.

(** C7, as amended: a text made of well-formed fenced spans (with any prose
    around them, and possibly an unterminated span at the end) yields one
    script per span whose body has at least one line, in source order, and
    as many scripts as there are such spans; a span with no line between
    its markers yields nothing, and the unterminated span never
    contributes. *)
Theorem extract_nonempty_spans (text : string) (sps : list span) (tr : trailer) :
  layout text sps tr →
  _extract_code_blocks text = script_of <$> List.filter nonempty_body sps ∧
  length (_extract_code_blocks text) = length (List.filter nonempty_body sps).
Proof.
  intros Hlay. rewrite (extract_layout _ _ _ Hlay). split; [done|]. by rewrite length_fmap.
Qed.

Lemma sample_layout : layout sample_text sample_spans sample_trailer.
Proof.
  split; [reflexivity|]. split.
  - repeat constructor.
  - split; [constructor|]. split; [reflexivity | repeat constructor].
Qed.

Lemma extract_nonempty_spans_witness :
  _extract_code_blocks Demo.sample_text = [join_newline ["x = 1"; "print(x)"]] ∧
  length (_extract_code_blocks Demo.sample_text) = 1%nat.
Proof.
  exact (extract_nonempty_spans Demo.sample_text Demo.sample_spans Demo.sample_trailer
           sample_layout).
Defined.

(** C7 as stated fails: one well-formed span whose body is empty is a text
    with [N = 1] spans from which no script is extracted. *)
Lemma empty_span_yields_nothing :
  ¬ (∀ text sps tr, layout text sps tr →
       length (_extract_code_blocks text) = length sps).
Proof.
  intros Hclaim.
  specialize (Hclaim (join_newline ["```python"; "```"])
                [Span [] "```python" [] "```"] (Trailer [] None)).
  assert (layout (join_newline ["```python"; "```"])
            [Span [] "```python" [] "```"] (Trailer [] None)) as Hlay.
  { split; [reflexivity|]. split; [repeat constructor | by split]. }
  specialize (Hclaim Hlay). vm_compute in Hclaim. discriminate.
Qed.

End ExtractorFacts.

(** ** The analysis sandbox *)

Module SandboxFacts.
Import PyStr Py Base CodeInterpreter.




Section Agent.
Context `{Runtime}.



End Agent.





End SandboxFacts.

(** ** The analysis worker *)

Module AnalysisFacts.
Import PyStr Py Base Extractor CodeInterpreter PyStrFacts.

(** [_needs_visualization] decides exactly whether a keyword occurs. *)
Lemma needs_visualization_spec (query : string) (results : list ScriptResult) :
  _needs_visualization query results = true ↔ mentions_plotting query.
Proof.
  unfold _needs_visualization, mentions_plotting. rewrite existsb_exists. split.
  - intros (keyword & Hin & Hc). exists keyword. split; [by apply list_elem_of_In|].
    by apply contains_spec.
  - intros (keyword & Hin & Hc). exists keyword. split; [by apply list_elem_of_In|].
    by apply contains_spec.
Qed.

(** A query asks for a plot, in the words of the specification, exactly
    when its lowercased text contains one of the code's keywords. *)
Lemma lower_spells (word keyword : string) :
  Forall (λ k, (97 ≤ nat_of_ascii k)%nat ∧ (nat_of_ascii k ≤ 122)%nat)
    (list_ascii_of_string keyword) →
  lower word = keyword ↔ spells word keyword.
Proof.
  unfold spells. revert keyword. induction word as [|c word IH]; intros keyword Hk.
  - destruct keyword as [|k keyword]; simpl.
    + split; [constructor | done].
    + split; [done | by inversion 1].
  - destruct keyword as [|k keyword]; simpl; [split; [done | by inversion 1]|].
    simpl in Hk. apply Forall_cons in Hk as [[Hlo Hhi] Hk]. split.
    + intros Heq. injection Heq as Hc Hw. constructor.
      * by apply lower_char_letter.
      * by apply IH.
    + intros Hsp. apply Forall2_cons in Hsp as [Hc Hw].
      f_equal; [by apply lower_char_letter | by apply IH].
Qed.

Lemma asks_for_plot_spec (query : string) :
  asks_for_plot query ↔ mentions_plotting query.
Proof.
  assert (∀ keyword, keyword ∈ plotting_keywords →
            keyword ∈ viz_keywords ∧
            Forall (λ k, (97 ≤ nat_of_ascii k)%nat ∧ (nat_of_ascii k ≤ 122)%nat)
              (list_ascii_of_string keyword)) as Hletters.
  { intros keyword Hin. split; [done|].
    unfold plotting_keywords in Hin. rewrite !elem_of_cons, elem_of_nil in Hin.
    repeat (destruct Hin as [->|Hin]; [repeat constructor; simpl; lia|]). done. }
  unfold asks_for_plot, mentions_plotting. split.
  - intros (keyword & before & word & after & Hin & -> & Hsp).
    destruct (Hletters keyword Hin) as [Hviz Hk].
    exists keyword. split; [done|]. exists (lower before), (lower after).
    rewrite !lower_app. f_equal. f_equal. by apply lower_spells.
  - intros (keyword & Hin & before' & after' & Hq).
    destruct (Hletters keyword Hin) as [_ Hk].
    destruct (lower_split _ _ _ Hq) as (before & rest & -> & _ & Hrest).
    destruct (lower_split _ _ _ Hrest) as (word & after & -> & Hword & _).
    exists keyword, before, word, after. split; [done|]. split; [done|].
    by apply lower_spells.
Qed.

Section Agent.
Context `{Runtime}.

(** Unless the script leaves the interpreter, [_execute_code] returns a
    result, flagged failed exactly when the script raised. *)
Lemma execute_code_fields (code : string) (dataframes : gmap string DataFrame) (w : world) :
  exited (py_exec code (initial_globals dataframes) w).1 = false →
  ∃ result, (_execute_code code dataframes w).1.1 = inr result ∧
    sr_code result = code ∧
    sr_success result = negb (raised (py_exec code (initial_globals dataframes) w).1).
Proof.
  unfold _execute_code.
  destruct (py_exec code (initial_globals dataframes) w)
    as [[g ch out err|e ch out err|e ch out err] w']; simpl; [by eauto..|done].
Qed.

(** The loop runs every script of the batch, whatever the earlier ones did,
    as long as none leaves the interpreter. *)
Lemma run_blocks_spec (code_blocks : list string) (acc : list ScriptResult)
    (dataframes : gmap string DataFrame) (w : world) :
  Forall (λ o, exited o = false) (outcomes code_blocks dataframes w) →
  ∃ results dataframes' w',
    run_blocks code_blocks acc dataframes w = (inr (acc ++ results), dataframes', w') ∧
    sr_code <$> results = code_blocks ∧
    sr_success <$> results =
      (λ o, negb (raised o)) <$> outcomes code_blocks dataframes w.
Proof.
  revert acc dataframes w. induction code_blocks as [|code rest IH];
    intros acc dataframes w Hstay.
  - exists [], dataframes, w. simpl. by rewrite app_nil_r.
  - simpl in *.
    assert (exited (py_exec code (initial_globals dataframes) w).1 = false) as Hcode.
    { destruct (_execute_code code dataframes w) as [[[e|r] d1] w1];
        by apply Forall_cons in Hstay as [? _]. }
    destruct (execute_code_fields code dataframes w Hcode) as (r & Hr & Hc & Hs).
    destruct (_execute_code code dataframes w) as [[[e|r'] dataframes1] w1];
      simpl in Hr; [done|]. injection Hr as ->.
    apply Forall_cons in Hstay as [_ Hstay].
    destruct (IH (acc ++ [r]) dataframes1 w1 Hstay)
      as (results & dataframes' & w' & Hrun & Hcs & Hss).
    exists (r :: results), dataframes', w'. rewrite Hrun, <- app_assoc.
    rewrite !fmap_cons, Hc, Hcs, Hs, Hss. done.
Qed.

Lemma load_one_ingests (file : string * string) (dataframes : gmap string DataFrame)
    (context : gmap string ctx_entry) (w : world) :
  ingests file w →
  ∃ df context', read_csv file.2 w = inr df ∧
    load_one file.1 file.2 dataframes context w = (None, <[file.1 := df]> dataframes, context').
Proof.
  intros (df & Hread & Hsum). unfold load_one. rewrite Hread.
  destruct (0 <? length (df_rows df))%nat; [|by eauto].
  destruct (Hsum eq_refl) as [summary Hdesc]. rewrite Hdesc. by eauto.
Qed.

(** Files that are ingested are stored one after the other. *)
Lemma load_files_ingested (done rest : list (string * string))
    (dataframes : gmap string DataFrame) (context : gmap string ctx_entry) (w : world) :
  Forall (λ file, ingests file w) done →
  ∃ context', load_files (done ++ rest) dataframes context w =
              load_files rest (registered done dataframes w) context' w.
Proof.
  intros Hdone. revert dataframes context.
  induction Hdone as [|[filename filepath] done Hfile _ IH]; intros dataframes context.
  - by exists context.
  - destruct (load_one_ingests _ dataframes context w Hfile) as (df & context1 & Hread & Hload).
    simpl in *. rewrite Hload, Hread. apply IH.
Qed.

Lemma registered_lookup_other (done : list (string * string))
    (dataframes : gmap string DataFrame) (w : world) (key : string) :
  key ∉ done.*1 → registered done dataframes w !! key = dataframes !! key.
Proof.
  revert dataframes. induction done as [|[filename filepath] done IH]; intros dataframes Hk; [done|].
  simpl in *. apply not_elem_of_cons in Hk as [Hne Hk].
  destruct (read_csv filepath w); [done|]. rewrite IH by done. by rewrite lookup_insert_ne.
Qed.

Lemma registered_lookup_done (done : list (string * string))
    (dataframes : gmap string DataFrame) (w : world) (filename : string) :
  Forall (λ file, ingests file w) done → filename ∈ done.*1 →
  is_Some (registered done dataframes w !! filename).
Proof.
  intros Hdone. revert dataframes.
  induction Hdone as [|[name path] done (df & Hread & _) _ IH]; intros dataframes Hin.
  - by apply elem_of_nil in Hin.
  - simpl in *. rewrite Hread.
    destruct (decide (filename ∈ done.*1)) as [Hlater|Hlater]; [by apply IH|].
    rewrite registered_lookup_other by done.
    apply elem_of_cons in Hin as [->|Hin]; [|done].
    rewrite lookup_insert_eq. by eauto.
Qed.

(** C4, as amended: when a file of the input fails to parse, the invocation
    returns [success = False] with a message naming that file and no data,
    and without calling the model; the files that precede it in the input
    stay loaded in the Table Registry (the load is partial), while no other
    name of the Registry changes: the failing file and the files after it
    are not loaded. *)
Theorem ingestion_failure_keeps_earlier_files (input : Input)
    (dataframes : gmap string DataFrame) (w : world)
    (done rest : list (string * string)) (filename filepath : string) (e : exn) :
  files input = done ++ (filename, filepath) :: rest →
  Forall (λ file, ingests file w) done →
  read_csv filepath w = inl e →
  let dataframes' := (process input dataframes w).1.2 in
  ∃ envelope,
    (process input dataframes w).1.1 = inr envelope ∧
    success envelope = false ∧ data envelope = NoData ∧
    message envelope = "Error loading CSV file " +:+ filename +:+ ": " +:+ exn_str e ∧
    (process input dataframes w).2 = w ∧
    dataframes' = registered done dataframes w ∧
    (∀ name, name ∈ done.*1 → is_Some (dataframes' !! name)) ∧
    (∀ key, key ∉ done.*1 → dataframes' !! key = dataframes !! key).
Proof.
  intros Hfiles Hdone Hread. unfold process. rewrite Hfiles.
  destruct (load_files_ingested done ((filename, filepath) :: rest) dataframes
              (context input) w Hdone) as [context' Hload].
  rewrite Hload. simpl. unfold load_one. rewrite Hread. simpl.
  eexists. split; [done|]. simpl. repeat (split; [done|]). split.
  - intros name Hname. by apply registered_lookup_done.
  - intros key Hkey. by apply registered_lookup_other.
Qed.

(** C6, as amended: when the files load, the model answers, at least one
    script is extracted and no script raises an exception that
    [except Exception] lets through, the envelope reports [success = True]
    whatever the scripts did; its results hold one entry per extracted
    script, in order, and the entry of a script is flagged failed exactly
    when that script raised. *)
Theorem script_errors_stay_local (input : Input) (dataframes dataframes1 : gmap string DataFrame)
    (context1 : gmap string ctx_entry) (w w1 : world) (text : string) :
  load_files (files input) dataframes (context input) w = (None, dataframes1, context1) →
  generate_content (_build_prompt (query input) context1 dataframes1) w = (inr text, w1) →
  _extract_code_blocks text ≠ [] →
  Forall (λ o, exited o = false) (outcomes (_extract_code_blocks text) dataframes1 w1) →
  ∃ envelope results dataframes2 info,
    (process input dataframes w).1.1 = inr envelope ∧
    success envelope = true ∧
    data envelope = Executed text (_extract_code_blocks text) results dataframes2 info ∧
    sr_code <$> results = _extract_code_blocks text ∧
    sr_success <$> results =
      (λ o, negb (raised o)) <$> outcomes (_extract_code_blocks text) dataframes1 w1 ∧
    (∀ i e changed stdout stderr,
       outcomes (_extract_code_blocks text) dataframes1 w1 !! i
         = Some (Raised e changed stdout stderr) →
       ∃ result, results !! i = Some result ∧ sr_success result = false).
Proof.
  intros Hload Hreply Hblocks Hstay. unfold process. rewrite Hload, Hreply.
  destruct (_extract_code_blocks text) as [|code rest] eqn:Hext; [done|].
  destruct (run_blocks_spec (code :: rest) [] dataframes1 w1 Hstay)
    as (results & dataframes2 & w2 & Hrun & Hcode & Hsucc).
  rewrite Hrun. clear Hrun Hstay. revert Hsucc.
  generalize (outcomes (code :: rest) dataframes1 w1). intros outs Hsucc.
  simpl. eexists _, results, dataframes2, _.
  split; [done|]. simpl. split; [done|]. split; [done|]. split; [done|]. split; [done|].
  intros i e changed stdout stderr Hi.
  assert ((sr_success <$> results) !! i = Some false) as Hflag.
  { rewrite Hsucc, list_lookup_fmap, Hi. done. }
  rewrite list_lookup_fmap in Hflag.
  destruct (results !! i) as [result|]; [|done].
  exists result. split; [done|]. simpl in Hflag. congruence.
Qed.

(** C8: when at least one script was extracted and executed, the next worker
    is the plotting worker exactly when the query contains, in any case of
    its letters (that is, once lowercased), one of the ten keywords plot,
    graph, chart, visualize, show, display, trend, distribution, compare and
    correlation, and it is the synthesis worker otherwise. *)
Theorem next_worker_by_keyword (input : Input) (dataframes dataframes1 : gmap string DataFrame)
    (context1 : gmap string ctx_entry) (w w1 : world) (text : string) :
  load_files (files input) dataframes (context input) w = (None, dataframes1, context1) →
  generate_content (_build_prompt (query input) context1 dataframes1) w = (inr text, w1) →
  _extract_code_blocks text ≠ [] →
  Forall (λ o, exited o = false) (outcomes (_extract_code_blocks text) dataframes1 w1) →
  ∃ envelope,
    (process input dataframes w).1.1 = inr envelope ∧
    (next_agent envelope = Some "VisualizationAgent" ↔ asks_for_plot (query input)) ∧
    (next_agent envelope = Some "AnswerSynthesiser" ↔ ¬ asks_for_plot (query input)).
Proof.
  intros Hload Hreply Hblocks Hstay. unfold process. rewrite Hload, Hreply.
  destruct (_extract_code_blocks text) as [|code rest] eqn:Hext; [done|].
  destruct (run_blocks_spec (code :: rest) [] dataframes1 w1 Hstay)
    as (results & dataframes2 & w2 & Hrun & _).
  rewrite Hrun. simpl. eexists. split; [done|]. simpl.
  rewrite asks_for_plot_spec, <- (needs_visualization_spec (query input) results).
  destruct (_needs_visualization (query input) results); split; split; intros Hn;
    try done; try (by inversion Hn).
Qed.

End Agent.

(** C4 as stated fails: [broken.csv] does not parse, the invocation fails,
    and [sales.csv], read before it, is in the Registry afterwards. *)
Lemma partial_load_after_failure :
  let R := Demo.runtime (inr "") in
  let run := process Demo.upload ∅ Demo.world0 in
  (∃ envelope, run.1.1 = inr envelope ∧ success envelope = false) ∧
  run.1.2 !! "sales.csv" = Some Demo.sales ∧
  ¬ (∀ file, file ∈ files Demo.upload → run.1.2 !! file.1 = None).
Proof.
  intros R run. split; [by eexists|]. split; [vm_compute; reflexivity|].
  intros Hnone. specialize (Hnone ("sales.csv", "uploads/sales.csv")).
  assert (("sales.csv", "uploads/sales.csv") ∈ files Demo.upload) as Hin by apply list_elem_of_here.
  specialize (Hnone Hin). vm_compute in Hnone. discriminate.
Qed.

Lemma ingestion_failure_keeps_earlier_files_witness :
  let R := Demo.runtime (inr "") in
  let done := [("sales.csv", "uploads/sales.csv")] in
  let dataframes' := (process Demo.upload ∅ Demo.world0).1.2 in
  ∃ envelope,
    (process Demo.upload ∅ Demo.world0).1.1 = inr envelope ∧
    success envelope = false ∧ data envelope = NoData ∧
    message envelope = "Error loading CSV file broken.csv: Error tokenizing data" ∧
    (process Demo.upload ∅ Demo.world0).2 = Demo.world0 ∧
    dataframes' = registered done ∅ Demo.world0 ∧
    (∀ name, name ∈ done.*1 → is_Some (dataframes' !! name)) ∧
    (∀ key, key ∉ done.*1 → dataframes' !! key = (∅ : gmap string DataFrame) !! key).
Proof.
  intros R done.
  apply (ingestion_failure_keeps_earlier_files (H := R) Demo.upload ∅ Demo.world0
           done [("late.csv", "uploads/sales.csv")] "broken.csv" "uploads/broken.csv"
           (Exn "ParserError" "Error tokenizing data")).
  - reflexivity.
  - constructor; [|constructor]. exists Demo.sales. split; [reflexivity|].
    intros _. eexists. reflexivity.
  - reflexivity.
Defined.

Lemma script_errors_stay_local_witness :
  let R := Demo.runtime (inr Demo.two_scripts) in
  ∃ envelope results dataframes2 info,
    (process Demo.average_query Demo.registry0 Demo.world0).1.1 = inr envelope ∧
    success envelope = true ∧
    data envelope = Executed Demo.two_scripts (_extract_code_blocks Demo.two_scripts)
                      results dataframes2 info ∧
    sr_code <$> results = _extract_code_blocks Demo.two_scripts ∧
    sr_success <$> results =
      (λ o, negb (raised o)) <$>
        outcomes (_extract_code_blocks Demo.two_scripts) Demo.registry0 Demo.world0 ∧
    (∀ i e changed stdout stderr,
       outcomes (_extract_code_blocks Demo.two_scripts) Demo.registry0 Demo.world0 !! i
         = Some (Raised e changed stdout stderr) →
       ∃ result, results !! i = Some result ∧ sr_success result = false).
Proof.
  intros R.
  apply (script_errors_stay_local (H := R) Demo.average_query Demo.registry0 Demo.registry0
           ∅ Demo.world0 Demo.world0 Demo.two_scripts).
  - reflexivity.
  - reflexivity.
  - vm_compute. discriminate.
  - repeat constructor.
Defined.

(** C6 as stated fails: the first of two scripts raises [SystemExit], which
    neither [except Exception] catches; the invocation returns no envelope,
    the exception leaves [process], and the second script is not run. *)
Lemma exiting_script_ends_invocation :
  let R := Demo.runtime (inr Demo.exit_then_total) in
  let run := process Demo.average_query Demo.registry0 Demo.world0 in
  _extract_code_blocks Demo.exit_then_total = [Demo.exit_script; "total = 1"] ∧
  (py_exec Demo.exit_script (initial_globals Demo.registry0) Demo.world0).1
    = Exited (Exn "SystemExit" "") ∅ "" "" ∧
  outcomes (_extract_code_blocks Demo.exit_then_total) Demo.registry0 Demo.world0
    = [Exited (Exn "SystemExit" "") ∅ "" ""] ∧
  run.1.1 = inl (Exn "SystemExit" "") ∧
  ¬ (∃ envelope, run.1.1 = inr envelope ∧ success envelope = true).
Proof.
  intros R run. split; [reflexivity|]. split; [reflexivity|]. split; [reflexivity|].
  split; [reflexivity|]. by intros (envelope & Henv & _).
Qed.

Lemma next_worker_by_keyword_witness :
  let R := Demo.runtime (inr Demo.two_scripts) in
  (∃ envelope,
     (process Demo.trend_query Demo.registry0 Demo.world0).1.1 = inr envelope ∧
     next_agent envelope = Some "VisualizationAgent" ∧
     asks_for_plot "Show the TREND of revenue over time") ∧
  (∃ envelope,
     (process Demo.average_query Demo.registry0 Demo.world0).1.1 = inr envelope ∧
     next_agent envelope = Some "AnswerSynthesiser" ∧
     ¬ asks_for_plot "What is the average revenue").
Proof.
  intros R. split.
  - destruct (next_worker_by_keyword (H := R) Demo.trend_query Demo.registry0 Demo.registry0
                ∅ Demo.world0 Demo.world0 Demo.two_scripts)
      as (envelope & Henv & Hplot & _);
      [reflexivity | reflexivity | by vm_compute | repeat constructor |].
    assert (asks_for_plot "Show the TREND of revenue over time") as Hasks.
    { exists "trend", "Show the ", "TREND", " of revenue over time".
      split; [repeat (first [apply list_elem_of_here | apply list_elem_of_further])|].
      split; [reflexivity|]. repeat constructor; right; simpl; lia. }
    exists envelope. split; [done|]. split; [by apply Hplot | done].
  - destruct (next_worker_by_keyword (H := R) Demo.average_query Demo.registry0
                Demo.registry0 ∅ Demo.world0 Demo.world0 Demo.two_scripts)
      as (envelope & Henv & _ & Hsyn);
      [reflexivity | reflexivity | by vm_compute | repeat constructor |].
    assert (next_agent envelope = Some "AnswerSynthesiser") as Hnext.
    { vm_compute in Henv. by injection Henv as <-. }
    exists envelope. split; [done|]. split; [done | by apply Hsyn].
Defined.

End AnalysisFacts.

(** ** Base64 *)

Module Base64Facts.
Import Base64.

Lemma value_digit (i : N) : (i < 64)%N → value (digit i) = Some i.
Proof.
  intros Hi. rewrite <- (N2Nat.id i). assert (N.to_nat i < 64)%nat as Hn by lia.
  generalize dependent (N.to_nat i). clear. intros n Hn.
  do 64 (destruct n as [|n]; [vm_compute; reflexivity|]). lia.
Qed.

Lemma value_pad : value pad = None.
Proof. reflexivity. Qed.

Lemma digit_not_pad (i : N) : (i < 64)%N → digit i ≠ pad.
Proof.
  intros Hi Heq. pose proof (value_digit i Hi) as Hv. rewrite Heq, value_pad in Hv. done.
Qed.

(** Division and remainder by constants, for [lia]. *)
Ltac euclid := zify; Z.to_euclidean_division_equations; lia.

Lemma byte_bound (b : byte) : (Byte.to_N b < 256)%N.
Proof. pose proof (Byte.to_N_bounded b). lia. Qed.

Lemma decode_group (a b c : byte) (rest : list byte) :
  b64decode (b64encode (a :: b :: c :: rest)) =
  tail ← b64decode (b64encode rest); Some (a :: b :: c :: tail).
Proof.
  pose proof (byte_bound a) as Ha. pose proof (byte_bound b) as Hb.
  pose proof (byte_bound c) as Hc.
  cbn [b64encode b64decode].
  set (n := (Byte.to_N a * 65536 + Byte.to_N b * 256 + Byte.to_N c)%N).
  rewrite !value_digit by (unfold n; euclid). cbn [mbind option_bind].
  destruct (decide (digit (n mod 64) = pad)) as [Hp|_].
  { exfalso. revert Hp. apply digit_not_pad. unfold n. euclid. }
  replace (n / 262144 * 262144 + n / 4096 mod 64 * 4096 + n / 64 mod 64 * 64 + n mod 64)%N
    with n by (unfold n; euclid).
  unfold bytes_of.
  replace (n / 65536)%N with (Byte.to_N a) by (unfold n; euclid).
  replace (n / 256 mod 256)%N with (Byte.to_N b) by (unfold n; euclid).
  replace (n mod 256)%N with (Byte.to_N c) by (unfold n; euclid).
  rewrite !Byte.of_to_N. cbn [mbind option_bind]. done.
Qed.

Lemma decode_one (a : byte) : b64decode (b64encode [a]) = Some [a].
Proof.
  pose proof (byte_bound a) as Ha. cbn [b64encode b64decode].
  set (n := (Byte.to_N a * 65536)%N).
  rewrite !value_digit by (unfold n; euclid). cbn [mbind option_bind].
  rewrite !decide_True by done.
  replace (n / 262144 * 262144 + n / 4096 mod 64 * 4096)%N with n by (unfold n; euclid).
  unfold bytes_of. replace (n / 65536)%N with (Byte.to_N a) by (unfold n; euclid).
  by rewrite Byte.of_to_N.
Qed.

Lemma decode_two (a b : byte) : b64decode (b64encode [a; b]) = Some [a; b].
Proof.
  pose proof (byte_bound a) as Ha. pose proof (byte_bound b) as Hb.
  cbn [b64encode b64decode].
  set (n := (Byte.to_N a * 65536 + Byte.to_N b * 256)%N).
  rewrite !value_digit by (unfold n; euclid). cbn [mbind option_bind].
  rewrite !decide_True by done.
  destruct (decide (digit (n / 64 mod 64) = pad)) as [Hp|_].
  { exfalso. revert Hp. apply digit_not_pad. unfold n. euclid. }
  replace (n / 262144 * 262144 + n / 4096 mod 64 * 4096 + n / 64 mod 64 * 64)%N
    with n by (unfold n; euclid).
  unfold bytes_of. replace (n / 65536)%N with (Byte.to_N a) by (unfold n; euclid).
  replace (n / 256 mod 256)%N with (Byte.to_N b) by (unfold n; euclid).
  by rewrite !Byte.of_to_N.
Qed.

(** Decoding undoes encoding, three bytes at a time. *)
Lemma b64decode_b64encode (data : list byte) : b64decode (b64encode data) = Some data.
Proof.
  assert (b64decode (b64encode data) = Some data ∧
          (∀ a, b64decode (b64encode (a :: data)) = Some (a :: data)) ∧
          (∀ a b, b64decode (b64encode (a :: b :: data)) = Some (a :: b :: data)))
    as [Hdata _]; [|done].
  induction data as [|c data (IH0 & IH1 & IH2)].
  - split; [done|]. split; [apply decode_one | apply decode_two].
  - split; [apply IH1|]. split; [intros a; apply IH2|].
    intros a b. by rewrite decode_group, IH0.
Qed.

End Base64Facts.

(** ** The plotting worker *)

Module PlottingFacts.
Import PyStr Py Dynamic Base Extractor Base64 Visualization Base64Facts.

Section Agent.
Context `{Runtime}.

(** C5, as amended: a plotting script that completes without raising and
    leaves a file at the designated path yields a [success = True] artifact
    whose payload base64-decodes to exactly the bytes of that file, and the
    path no longer exists when the sandbox returns; a script that completes
    and leaves no file there yields [success = False] with the error
    "No plot file was created"; a script that raises yields
    [success = False] with [str(e)] as error, whether or not it wrote the
    file before raising.  (Raising is raising an exception derived from
    [Exception]; one that is not leaves the sandbox without an artifact.) *)
Theorem artifact_of_plot_script (code : string) (context : plot_context)
    (exec_globals : gmap string pyval) (w w1 : world) (outcome : exec_outcome) :
  initial_globals context = inr exec_globals →
  py_exec code exec_globals w = (outcome, w1) →
  let run := _create_visualization code context w in
  match outcome, files w1 !! plot_path with
  | Completed _ _ _ _, Some img_data =>
      ∃ artifact, run.1 = inr artifact ∧
        viz_success artifact = true ∧
        image_base64 artifact ≫= b64decode = Some img_data ∧
        viz_error artifact = None ∧
        files run.2 !! plot_path = None
  | Completed _ _ _ _, None =>
      ∃ artifact, run.1 = inr artifact ∧
        viz_success artifact = false ∧ image_base64 artifact = None ∧
        viz_error artifact = Some "No plot file was created" ∧
        files run.2 !! plot_path = None
  | Raised e _ _ _, _ =>
      ∃ artifact, run.1 = inr artifact ∧
        viz_success artifact = false ∧ image_base64 artifact = None ∧
        viz_error artifact = Some (exn_str e)
  | Exited e _ _ _, _ => run.1 = inl (Exiting e)
  end.
Proof.
  intros Hns Hexec. unfold _create_visualization. rewrite Hns, Hexec.
  destruct outcome as [globals changed stdout stderr|e changed stdout stderr
                      |e changed stdout stderr].
  - destruct (files w1 !! plot_path) as [img_data|] eqn:Hfile; simpl.
    + eexists. split; [done|]. simpl. split; [done|].
      split; [apply b64decode_b64encode|]. split; [done|]. apply lookup_delete_eq.
    + eexists. by split.
  - destruct (files w1 !! plot_path); eexists; by split.
  - by destruct (files w1 !! plot_path).
Qed.

(** The sandbox returns an artifact once the namespace is built, unless the
    script leaves the interpreter. *)
Lemma create_visualization_returns (code : string) (context : plot_context)
    (exec_globals : gmap string pyval) (w : world) :
  initial_globals context = inr exec_globals →
  exited (py_exec code exec_globals w).1 = false →
  ∃ artifact, (_create_visualization code context w).1 = inr artifact.
Proof.
  intros Hns. unfold _create_visualization. rewrite Hns.
  destruct (py_exec code exec_globals w) as [[g ch out err|e ch out err|e ch out err] w1];
    simpl; [destruct (files w1 !! plot_path)| |]; by eauto.
Qed.

Lemma artifact_fields (code : string) (context : plot_context) (w : world)
    (artifact : Artifact) :
  (_create_visualization code context w).1 = inr artifact →
  viz_code artifact = code ∧ (viz_success artifact = true → viz_error artifact = None).
Proof.
  unfold _create_visualization. destruct (initial_globals context) as [e|exec_globals]; [done|].
  destruct (py_exec code exec_globals w) as [[g ch out err|e ch out err|e ch out err] w1];
    [destruct (files w1 !! plot_path)| |]; simpl; intros Heq; by simplify_eq.
Qed.

(** When the loop ends, it has run every script and kept the successful
    artifacts, in order, and nothing else. *)
Lemma render_blocks_returns (code_blocks : list string) (context : plot_context)
    (acc : list Artifact) (w : world) (visualizations : list Artifact) :
  (render_blocks code_blocks context acc w).1 = inr visualizations →
  visualizations = acc ++ List.filter viz_success (all_artifacts code_blocks context w) ∧
  viz_code <$> all_artifacts code_blocks context w = code_blocks ∧
  Forall (λ a, viz_success a = true → viz_error a = None)
    (all_artifacts code_blocks context w).
Proof.
  revert acc w. induction code_blocks as [|code rest IH]; intros acc w Hrun.
  - simpl in *. injection Hrun as <-. by rewrite app_nil_r.
  - simpl in *. pose proof (artifact_fields code context w) as Hfields.
    destruct (_create_visualization code context w) as [[t|viz_result] w1]; [done|].
    destruct (Hfields viz_result eq_refl) as [Hcode Herr].
    destruct (IH _ _ Hrun) as (-> & Hcodes & Herrs).
    rewrite fmap_cons, Hcode, Hcodes. split; [|by split; [|constructor]].
    simpl. destruct (viz_success viz_result); [|done]. by rewrite <- app_assoc.
Qed.

Lemma render_blocks_total (code_blocks : list string) (context : plot_context)
    (exec_globals : gmap string pyval) (acc : list Artifact) (w : world) :
  initial_globals context = inr exec_globals →
  Forall (λ o, exited o = false) (plot_outcomes code_blocks context w) →
  ∃ visualizations, (render_blocks code_blocks context acc w).1 = inr visualizations.
Proof.
  intros Hns. revert acc w. induction code_blocks as [|code rest IH]; intros acc w Hstay.
  - by eexists.
  - simpl in *. rewrite Hns in Hstay. apply Forall_cons in Hstay as [Hcode Hstay].
    destruct (create_visualization_returns code context exec_globals w Hns Hcode)
      as [artifact Hart].
    destruct (_create_visualization code context w) as [[t|viz_result] w1]; [done|].
    by apply IH.
Qed.

(** C10, as amended: when the model answers, at least one script is
    extracted, the namespace of the scripts can be built from the context
    and no script raises an exception that [except Exception] lets through,
    the envelope reports [success = True]; every extracted script is run,
    and the visualizations of the envelope are the artifacts of the batch
    whose success flag is set, in execution order; every entry is a success
    without error text, so a failed script leaves no record; and the
    reported count and the message give the number of successes. *)
Theorem envelope_keeps_successes_only (input : Input) (w w1 : world) (text : string)
    (exec_globals : gmap string pyval) :
  generate_content (_build_prompt (query input) (context input)) w = (inr text, w1) →
  _extract_code_blocks text ≠ [] →
  initial_globals (context input) = inr exec_globals →
  Forall (λ o, exited o = false)
    (plot_outcomes (_extract_code_blocks text) (context input) w1) →
  let shown := List.filter viz_success
                 (all_artifacts (_extract_code_blocks text) (context input) w1) in
  ∃ envelope,
    (process input w).1 = inr envelope ∧
    success envelope = true ∧
    data envelope = Plots text shown (Some (length shown)) ∧
    viz_code <$> all_artifacts (_extract_code_blocks text) (context input) w1
      = _extract_code_blocks text ∧
    Forall (λ a, viz_success a = true ∧ viz_error a = None) shown ∧
    message envelope = "Created " +:+ pretty (length shown) +:+ " visualizations" ∧
    next_agent envelope = Some "AnswerSynthesiser".
Proof.
  intros Hreply Hblocks Hns Hstay. unfold process. rewrite Hreply.
  destruct (render_blocks_total _ _ _ [] w1 Hns Hstay) as [visualizations Hrun].
  destruct (render_blocks_returns _ _ _ _ _ Hrun) as (Hshown & Hcodes & Herr).
  destruct (_extract_code_blocks text) as [|code rest]; [done|].
  destruct (render_blocks (code :: rest) (context input) [] w1) as [[t|vis] w2];
    simpl in Hrun; [done|]. injection Hrun as ->.
  simpl in Hshown. subst visualizations.
  eexists. split; [done|]. cbn [fst success data message next_agent].
  split; [done|]. split; [done|]. split; [done|]. split; [|done].
  revert Herr. generalize (all_artifacts (code :: rest) (context input) w1).
  intros arts Harts. induction Harts as [|a arts Ha _ IH]; [constructor|].
  simpl. destruct (viz_success a) eqn:Hs; [|done]. constructor; [|done]. by split; [|apply Ha].
Qed.

End Agent.

(** C5 as stated fails: the script writes the image and then raises; the
    artifact is a failure and the file is still at the designated path when
    the sandbox returns. *)
Lemma image_written_then_script_raises :
  let R := Demo.runtime (inr "") in
  let w1 := (py_exec Demo.save_then_fail_script Demo.plot_globals0 Demo.world0).2 in
  let run := _create_visualization Demo.save_then_fail_script Demo.plot_context0 Demo.world0 in
  initial_globals Demo.plot_context0 = inr Demo.plot_globals0 ∧
  files w1 !! plot_path = Some Demo.png ∧
  ¬ (∃ artifact, run.1 = inr artifact ∧ viz_success artifact = true ∧
       image_base64 artifact ≫= b64decode = Some Demo.png ∧
       files run.2 !! plot_path = None) ∧
  (∃ artifact, run.1 = inr artifact ∧ viz_success artifact = false) ∧
  files run.2 !! plot_path = Some Demo.png.
Proof.
  intros R w1 run. split; [reflexivity|]. split; [vm_compute; reflexivity|]. split.
  - intros (artifact & Hrun & Hs & _). vm_compute in Hrun. injection Hrun as <-.
    discriminate.
  - split; [by eexists|]. vm_compute. reflexivity.
Qed.

Lemma artifact_of_plot_script_witness :
  let R := Demo.runtime (inr "") in
  let run := _create_visualization Demo.save_script Demo.plot_context0 Demo.world0 in
  ∃ artifact, run.1 = inr artifact ∧
    viz_success artifact = true ∧
    image_base64 artifact ≫= b64decode = Some Demo.png ∧
    viz_error artifact = None ∧
    files run.2 !! plot_path = None.
Proof.
  intros R.
  exact (artifact_of_plot_script (H := R) Demo.save_script Demo.plot_context0
           Demo.plot_globals0 Demo.world0
           (MkWorld (<[ "plot.png" := Demo.png ]> ∅) ())
           (Completed (Demo.with_builtins Demo.plot_globals0) ∅ "" "")
           eq_refl eq_refl).
Defined.

Lemma envelope_keeps_successes_only_witness :
  let R := Demo.runtime (inr Demo.two_plots) in
  let shown := List.filter viz_success
                 (all_artifacts (_extract_code_blocks Demo.two_plots)
                    (context Demo.plot_query) Demo.world0) in
  ∃ envelope,
    (process Demo.plot_query Demo.world0).1 = inr envelope ∧
    success envelope = true ∧
    data envelope = Plots Demo.two_plots shown (Some (length shown)) ∧
    viz_code <$> all_artifacts (_extract_code_blocks Demo.two_plots)
                   (context Demo.plot_query) Demo.world0
      = _extract_code_blocks Demo.two_plots ∧
    Forall (λ a, viz_success a = true ∧ viz_error a = None) shown ∧
    message envelope = "Created " +:+ pretty (length shown) +:+ " visualizations" ∧
    next_agent envelope = Some "AnswerSynthesiser".
Proof.
  intros R.
  apply (envelope_keeps_successes_only (H := R) Demo.plot_query Demo.world0 Demo.world0
           Demo.two_plots Demo.plot_globals0).
  - reflexivity.
  - vm_compute. discriminate.
  - reflexivity.
  - repeat constructor.
Defined.

(** C10 as stated fails: the model answers and two scripts are extracted,
    but the table of the context has columns of unequal length, so
    [pd.DataFrame] raises while the namespace of the first script is built;
    the envelope reports [success = False] and no script is run. *)
Lemma rejected_dictionary_fails_plotting :
  let R := Demo.runtime (inr Demo.two_plots) in
  let run := process Demo.ragged_query Demo.world0 in
  generate_content (_build_prompt (query Demo.ragged_query) (context Demo.ragged_query))
    Demo.world0 = (inr Demo.two_plots, Demo.world0) ∧
  _extract_code_blocks Demo.two_plots = ["1/0"; Demo.save_script] ∧
  initial_globals Demo.ragged_context
    = inl (Exn "ValueError" "All arrays must be of the same length") ∧
  run.1 = inr (Envelope false (Failed "All arrays must be of the same length")
                 "Error creating visualizations: All arrays must be of the same length"
                 name None []) ∧
  ¬ (∃ envelope, run.1 = inr envelope ∧ success envelope = true).
Proof.
  intros R run. split; [reflexivity|]. split; [reflexivity|]. split; [reflexivity|].
  split; [reflexivity|].
  intros (envelope & Hrun & Hs). vm_compute in Hrun. injection Hrun as <-. discriminate.
Qed.

End PlottingFacts.

(** ** The worker boundary *)

Module WorkerFacts.
Import PyStr Py Base Dynamic.

Section Agent.
Context `{Runtime}.

(** The synthesis worker builds its prompt inside the [try]: whatever the
    input, [process] returns an envelope. *)
Lemma synthesis_never_raises (input_data : list (string * dyn)) (w : world) :
  ∃ envelope, (Synthesiser.process input_data w).1 = inr envelope.
Proof.
  unfold Synthesiser.process.
  destruct (Synthesiser.attempt _ _ w) as [[e|r] w1]; simpl; eauto.
Qed.

(** A prompt that cannot be built becomes a failure envelope there. *)
Lemma synthesis_catches_prompt_failure (input_data : list (string * dyn)) (w : world) (e : exn) :
  Synthesiser._build_prompt (dict_get input_data "query" (DStr ""))
    (dict_get input_data "context" (DDict [])) = inl e →
  (Synthesiser.process input_data w).1 =
    inr (Envelope false (Synthesiser.Failed (exn_str e))
           ("Error synthesizing answer: " +:+ exn_str e) Synthesiser.name None []).
Proof.
  intros Hprompt. unfold Synthesiser.process, Synthesiser.attempt. by rewrite Hprompt.
Qed.

(** The reporting worker catches a failing model call ... *)
Lemma reporting_catches_model_failure (input_data : list (string * dyn)) (w w1 : world)
    (p : prompt) (e : exn) :
  Presentation._build_prompt (dict_get input_data "query" (DStr ""))
    (dict_get input_data "context" (DDict [])) = inr p →
  generate_content p w = (inl e, w1) →
  (Presentation.process input_data w).1 =
    inr (Envelope false (Presentation.Failed (exn_str e))
           ("Error creating presentation: " +:+ exn_str e) Presentation.name None []).
Proof.
  intros Hprompt Hreply. unfold Presentation.process. by rewrite Hprompt, Hreply.
Qed.

(** ... but a prompt that cannot be built is raised to the caller. *)
Lemma reporting_raises_prompt_failure (input_data : list (string * dyn)) (w : world) (e : exn) :
  Presentation._build_prompt (dict_get input_data "query" (DStr ""))
    (dict_get input_data "context" (DDict [])) = inl e →
  Presentation.process input_data w = (inl e, w).
Proof.
  intros Hprompt. unfold Presentation.process. by rewrite Hprompt.
Qed.

(** A failing model call is caught by the analysis and plotting workers as
    well. *)
Lemma analysis_catches_model_failure (input : CodeInterpreter.Input)
    (dataframes dataframes1 : gmap string DataFrame)
    (context1 : gmap string ctx_entry) (w w1 : world) (e : exn) :
  CodeInterpreter.load_files (CodeInterpreter.files input) dataframes
    (CodeInterpreter.context input) w = (None, dataframes1, context1) →
  generate_content
    (CodeInterpreter._build_prompt (CodeInterpreter.query input) context1 dataframes1) w
    = (inl e, w1) →
  ∃ envelope,
    (CodeInterpreter.process input dataframes w).1.1 = inr envelope ∧
    success envelope = false ∧
    message envelope = "Error during code interpretation: " +:+ exn_str e.
Proof.
  intros Hload Hreply. unfold CodeInterpreter.process. rewrite Hload, Hreply.
  by eexists.
Qed.

Lemma plotting_catches_model_failure (input : Visualization.Input) (w w1 : world) (e : exn) :
  generate_content
    (Visualization._build_prompt (Visualization.query input) (Visualization.context input)) w
    = (inl e, w1) →
  ∃ envelope,
    (Visualization.process input w).1 = inr envelope ∧
    success envelope = false ∧
    message envelope = "Error creating visualizations: " +:+ exn_str e.
Proof.
  intros Hreply. unfold Visualization.process. rewrite Hreply. by eexists.
Qed.

(** C3, which the code breaks: on a request whose context holds [None] for
    the analysis payload, or is [None] itself, the reporting worker's
    [process] raises [TypeError] to its caller instead of returning a
    [success = False] envelope, because [_build_prompt] is called before the
    [try]; the synthesis worker, which calls it inside the [try], returns
    the failure envelope on the same kind of input. *)
Theorem reporting_prompt_failure_escapes (w : world) :
  Presentation.process Demo.report_request w =
    (inl (TypeError "argument of type 'NoneType' is not iterable"), w) ∧
  Presentation.process Demo.bare_request w =
    (inl (TypeError "argument of type 'NoneType' is not iterable"), w) ∧
  (Synthesiser.process Demo.bare_request w).1 =
    inr (Envelope false
           (Synthesiser.Failed "'NoneType' object has no attribute 'get'")
           "Error synthesizing answer: 'NoneType' object has no attribute 'get'"
           Synthesiser.name None []).
Proof.
  split; [|split].
  - by apply reporting_raises_prompt_failure.
  - by apply reporting_raises_prompt_failure.
  - by rewrite (synthesis_catches_prompt_failure Demo.bare_request w
                  (AttributeError "'NoneType' object has no attribute 'get'")).
Qed.

End Agent.
End WorkerFacts.

(** * Further properties *)

(** ** Lines and fences *)

Module ExtractorProps.
Import PyStr Py Extractor PyStrFacts ExtractorFacts Notions.

Lemma split_newline_nonempty (s : string) : split_newline s ≠ [].
Proof.
  destruct s as [|c s]; simpl; [done|].
  destruct (decide (c = newline)); [done|]. by destruct (split_newline s).
Qed.

(** A line break between two texts separates their lines. *)
Lemma split_newline_app (a b : string) :
  split_newline (a +:+ nl +:+ b) = split_newline a ++ split_newline b.
Proof.
  induction a as [|c a IH].
  - rewrite append_nil. unfold nl. by rewrite append_cons, append_nil.
  - rewrite append_cons. simpl. destruct (decide (c = newline)); [by rewrite IH|].
    rewrite IH. pose proof (split_newline_nonempty a) as Hne.
    by destruct (split_newline a).
Qed.

Lemma split_newline_single (line : string) :
  no_newline line → split_newline line = [line].
Proof.
  unfold no_newline. induction line as [|c line IH]; simpl; [done|].
  intros Hline. apply Forall_cons in Hline as [Hc Hline].
  rewrite decide_False by done. by rewrite IH.
Qed.

(** The lines of a text contain no line break. *)
Lemma split_newline_lines (s : string) : Forall no_newline (split_newline s).
Proof.
  induction s as [|c s IH]; simpl.
  - repeat constructor.
  - destruct (decide (c = newline)); [constructor; [constructor | done]|].
    destruct (split_newline s) as [|l ls]; [repeat constructor; done|].
    apply Forall_cons in IH as [Hl Hls]. constructor; [|done].
    unfold no_newline. simpl. by constructor.
Qed.

Lemma join_newline_cons (l l' : string) (ls : list string) :
  join_newline (l :: l' :: ls) = l +:+ nl +:+ join_newline (l' :: ls).
Proof. reflexivity. Qed.

(** Joining lines and splitting again gives the lines back. *)
Lemma split_join (lines : list string) :
  lines ≠ [] → Forall no_newline lines →
  split_newline (join_newline lines) = lines.
Proof.
  intros Hne Hlines. induction Hlines as [|l ls Hl Hls IH]; [done|].
  destruct ls as [|l' ls'].
  - by apply split_newline_single.
  - rewrite join_newline_cons, split_newline_app, split_newline_single by done.
    by rewrite IH.
Qed.

(** Scripts found so far do not influence what the rest of the scan finds. *)
Lemma scan_lines_blocks (blocks : list string) (b : bool) (cur lines : list string) :
  scan_lines (Scan blocks b cur) lines =
  let st := scan_lines (Scan [] b cur) lines in
  Scan (blocks ++ code_blocks st) (in_code_block st) (current_block st).
Proof.
  revert blocks b cur. induction lines as [|l lines IH]; intros blocks b cur.
  - simpl. by rewrite app_nil_r.
  - rewrite !scan_lines_cons.
    assert (scan_line (Scan blocks b cur) l =
            Scan (blocks ++ code_blocks (scan_line (Scan [] b cur) l))
                 (in_code_block (scan_line (Scan [] b cur) l))
                 (current_block (scan_line (Scan [] b cur) l))) as ->.
    { unfold scan_line. simpl.
      destruct (opens l); simpl; [by rewrite app_nil_r|].
      destruct (closes l && b); simpl; [by destruct cur; rewrite ?app_nil_r|].
      destruct b; simpl; by rewrite app_nil_r. }
    destruct (scan_line (Scan [] b cur) l) as [blocks1 b1 cur1]. simpl.
    rewrite (IH (blocks ++ blocks1)), (IH blocks1). simpl. by rewrite app_assoc.
Qed.

(** Outside a fence, the lines of the last script are not looked at again. *)
Lemma scan_lines_outside (blocks cur cur' lines : list string) :
  code_blocks (scan_lines (Scan blocks false cur) lines) =
  code_blocks (scan_lines (Scan blocks false cur') lines).
Proof.
  revert cur cur'. induction lines as [|l lines IH]; intros cur cur'; [done|].
  rewrite !scan_lines_cons. destruct (opens l) eqn:Ho.
  - by rewrite !scan_line_open.
  - rewrite !scan_line_outside by done. apply IH.
Qed.

(** X1: a completion none of whose lines opens a fence yields no script,
    whatever else it contains (closing markers included). *)
Theorem no_fence_no_script (text : string) :
  Forall (λ line, opens line = false) (split_newline text) →
  _extract_code_blocks text = [].
Proof.
  intros Hprose. unfold _extract_code_blocks, scan_start. by rewrite scan_prose.
Qed.

Lemma no_fence_no_script_witness : _extract_code_blocks Samples.prose_only = [].
Proof.
  apply (no_fence_no_script Samples.prose_only). repeat constructor.
Defined.

(** X2: when the first of two texts leaves no fence open, the scripts of the
    two texts put together (on separate lines) are the scripts of the first
    followed by the scripts of the second. *)
Theorem extract_concatenation (text1 text2 : string) :
  in_code_block (scan_lines scan_start (split_newline text1)) = false →
  _extract_code_blocks (text1 +:+ nl +:+ text2) =
  _extract_code_blocks text1 ++ _extract_code_blocks text2.
Proof.
  intros Hclosed. unfold _extract_code_blocks.
  rewrite split_newline_app, scan_lines_app.
  destruct (scan_lines scan_start (split_newline text1)) as [blocks1 b1 cur1].
  simpl in *. subst b1. rewrite scan_lines_blocks. simpl.
  by rewrite (scan_lines_outside [] cur1 []).
Qed.

Lemma extract_concatenation_witness :
  _extract_code_blocks (Demo.two_scripts +:+ nl +:+ Demo.two_plots) =
  _extract_code_blocks Demo.two_scripts ++ _extract_code_blocks Demo.two_plots.
Proof.
  apply (extract_concatenation Demo.two_scripts Demo.two_plots). reflexivity.
Defined.

(** X3: a fence-open line met while a fence is already open starts the
    script over: the lines collected since the first marker are dropped and
    the script is made of the lines after the second one. *)
Theorem reopened_fence_restarts (text open1 open2 close : string)
    (dropped body : list string) :
  split_newline text = open1 :: dropped ++ open2 :: body ++ [close] →
  opens open1 = true → Forall (λ line, closes line = false) dropped →
  opens open2 = true → Forall plain body → closes close = true →
  _extract_code_blocks text =
    match body with [] => [] | _ :: _ => [join_newline body] end.
Proof.
  intros Hsplit Ho1 Hdropped Ho2 Hbody Hclose.
  unfold _extract_code_blocks, scan_start. rewrite Hsplit.
  rewrite scan_lines_cons, scan_line_open, scan_lines_app by done. simpl.
  pose proof (scan_unterminated [] [] dropped Hdropped) as Hnone.
  destruct (scan_lines (Scan [] true []) dropped) as [blocks b cur].
  simpl in Hnone. subst blocks.
  rewrite (scan_line_open _ open2), scan_lines_app, scan_body by done.
  simpl. rewrite scan_line_close by done. by destruct body.
Qed.

Lemma reopened_fence_restarts_witness :
  _extract_code_blocks Samples.reopened = [join_newline ["final = 2"]].
Proof.
  apply (reopened_fence_restarts Samples.reopened "```python" "```python" "```"
           ["draft = 1"] ["final = 2"]).
  - reflexivity.
  - reflexivity.
  - repeat constructor.
  - reflexivity.
  - repeat constructor.
  - reflexivity.
Defined.

Lemma scan_line_clean (st : scan) (line : string) :
  no_newline line →
  Forall clean_script (code_blocks st) →
  Forall (λ l, plain l ∧ no_newline l) (current_block st) →
  Forall clean_script (code_blocks (scan_line st line)) ∧
  Forall (λ l, plain l ∧ no_newline l) (current_block (scan_line st line)).
Proof.
  intros Hline Hblocks Hcur. unfold scan_line.
  destruct (opens line) eqn:Ho; [by split|].
  destruct (closes line) eqn:Hc, (in_code_block st); simpl; try (by split).
  - split; [|done]. destruct (current_block st) as [|l ls] eqn:Hcb; [done|].
    apply Forall_app. split; [done|]. constructor; [|constructor].
    by exists (l :: ls).
  - split; [done|]. apply Forall_app. split; [done|]. by repeat constructor.
Qed.

Lemma scan_lines_clean (st : scan) (lines : list string) :
  Forall no_newline lines →
  Forall clean_script (code_blocks st) →
  Forall (λ l, plain l ∧ no_newline l) (current_block st) →
  Forall clean_script (code_blocks (scan_lines st lines)).
Proof.
  intros Hlines. revert st. induction Hlines as [|l lines Hl _ IH]; intros st Hb Hc; [done|].
  rewrite scan_lines_cons. destruct (scan_line_clean st l Hl Hb Hc) as [Hb' Hc'].
  by apply IH.
Qed.

(** X4: no extracted script contains a fence marker line: every line of
    every script is a line that neither opens nor closes a fence, so
    extracting from a script again yields nothing. *)
Theorem scripts_hold_no_fence (text : string) :
  Forall (λ script, Forall plain (split_newline script) ∧
                    _extract_code_blocks script = [])
    (_extract_code_blocks text).
Proof.
  pose proof (scan_lines_clean scan_start (split_newline text)
                (split_newline_lines text)) as Hclean.
  unfold _extract_code_blocks at 1.
  eapply Forall_impl; [apply Hclean; constructor|].
  intros script (lines & Hne & -> & Hlines).
  assert (split_newline (join_newline lines) = lines) as Hsplit.
  { apply split_join; [done|]. eapply Forall_impl; [apply Hlines|]. by intros l [_ Hl]. }
  split.
  - rewrite Hsplit. eapply Forall_impl; [apply Hlines|]. by intros l [Hl _].
  - unfold _extract_code_blocks, scan_start. rewrite Hsplit, scan_prose; [done|].
    eapply Forall_impl; [apply Hlines|]. by intros l [[Ho _] _].
Qed.

End ExtractorProps.

(** ** Routing by keyword *)

Module RoutingProps.
Import PyStr Py CodeInterpreter PyStrFacts AnalysisFacts.

(** X5: a query routes to plotting as soon as it contains a keyword in any
    mix of upper and lower case, anywhere, inside a longer word included;
    the script results play no part. *)
Theorem keyword_in_any_case (keyword word before after : string)
    (results : list ScriptResult) :
  keyword ∈ viz_keywords → lower word = keyword →
  _needs_visualization (before +:+ word +:+ after) results = true.
Proof.
  intros Hin Hword. apply needs_visualization_spec. exists keyword. split; [done|].
  exists (lower before), (lower after). by rewrite !lower_app, Hword.
Qed.

Lemma keyword_in_any_case_witness :
  _needs_visualization ("Any sub" +:+ "TrEnD" +:+ "s?") [] = true.
Proof.
  apply (keyword_in_any_case "trend" "TrEnD" "Any sub" "s?" []).
  - vm_compute. repeat (first [apply list_elem_of_here | apply list_elem_of_further]).
  - reflexivity.
Defined.

End RoutingProps.

(** ** The Table Registry across executions *)

Module RegistryProps.
Import PyStr Py Base Extractor CodeInterpreter SandboxFacts AnalysisFacts Notions.

Section Agent.
Context `{Runtime}.









End Agent.




End RegistryProps.

(** ** Ingestion and the paths through the analysis worker *)

Module AnalysisProps.
Import PyStr Py Base Extractor CodeInterpreter ExtractorFacts AnalysisFacts Notions.

Section Agent.
Context `{Runtime}.

Lemma profile_key_inj (a b : string) : "df_" +:+ a = "df_" +:+ b → a = b.
Proof. intros Heq. by simplify_eq. Qed.

(** Loading touches, in the Registry and in the context, only the entries
    of the files it is given. *)
Lemma load_files_other (files : list (string * string)) (dataframes : gmap string DataFrame)
    (context : gmap string ctx_entry) (w : world) (key : string) :
  key ∉ files.*1 →
  (load_files files dataframes context w).1.2 !! key = dataframes !! key ∧
  (load_files files dataframes context w).2 !! ("df_" +:+ key) = context !! ("df_" +:+ key).
Proof.
  revert dataframes context. induction files as [|[filename filepath] files IH];
    intros dataframes context Hkey; [done|].
  simpl in *. apply not_elem_of_cons in Hkey as [Hne Hkey].
  assert ("df_" +:+ filename ≠ "df_" +:+ key) as Hne'.
  { intros Heq. apply Hne. symmetry. by apply profile_key_inj. }
  unfold load_one. destruct (read_csv filepath w) as [e|df]; [done|].
  destruct (0 <? length (df_rows df))%nat.
  - destruct (describe df) as [e|summary]; simpl; [by rewrite lookup_insert_ne|].
    destruct (IH (<[filename := df]> dataframes)
                (<["df_" +:+ filename := Profile df (Some summary)]> context) Hkey) as [-> ->].
    by rewrite !lookup_insert_ne.
  - destruct (IH (<[filename := df]> dataframes)
                (<["df_" +:+ filename := Profile df None]> context) Hkey) as [-> ->].
    by rewrite !lookup_insert_ne.
Qed.

(** X9: when every file of the input is ingested, loading reports no
    failure, each file name is bound in the Table Registry to the table
    parsed from its path, its profile is in the context under [df_] followed
    by the name, and no other name of the Registry changes. *)
Theorem all_files_registered (files : list (string * string))
    (dataframes : gmap string DataFrame) (context : gmap string ctx_entry) (w : world) :
  Forall (λ file, ingests file w) files → NoDup files.*1 →
  let loaded := load_files files dataframes context w in
  loaded.1.1 = None ∧
  (∀ name path, (name, path) ∈ files →
     ∃ df summary, read_csv path w = inr df ∧ loaded.1.2 !! name = Some df ∧
                   loaded.2 !! ("df_" +:+ name) = Some (Profile df summary)) ∧
  (∀ key, key ∉ files.*1 → loaded.1.2 !! key = dataframes !! key).
Proof.
  intros Hfiles Hdup. simpl. split; [|split].
  - revert dataframes context. clear Hdup.
    induction Hfiles as [|[filename filepath] files Hfile _ IH]; intros dataframes context; [done|].
    destruct (load_one_ingests _ dataframes context w Hfile) as (df & context1 & _ & Hload).
    simpl in *. rewrite Hload. apply IH.
  - revert dataframes context Hdup.
    induction Hfiles as [|[filename filepath] files Hfile _ IH];
      intros dataframes context Hdup name path Hin; [by apply elem_of_nil in Hin|].
    simpl in Hdup. apply NoDup_cons in Hdup as [Hfresh Hdup].
    destruct Hfile as (df & Hread & Hsum). simpl in Hread, Hsum.
    simpl. unfold load_one. rewrite Hread.
    apply elem_of_cons in Hin as [Heq|Hin].
    + injection Heq as -> ->. exists df.
      destruct (0 <? length (df_rows df))%nat.
      * destruct (Hsum eq_refl) as [summary ->]. exists (Some summary).
        split; [done|].
        destruct (load_files_other files (<[filename := df]> dataframes)
                    (<["df_" +:+ filename := Profile df (Some summary)]> context) w filename
                    Hfresh) as [-> ->].
        by rewrite !lookup_insert_eq.
      * exists None. split; [done|].
        destruct (load_files_other files (<[filename := df]> dataframes)
                    (<["df_" +:+ filename := Profile df None]> context) w filename
                    Hfresh) as [-> ->].
        by rewrite !lookup_insert_eq.
    + destruct (0 <? length (df_rows df))%nat.
      * destruct (Hsum eq_refl) as [summary ->]. by apply IH.
      * by apply IH.
  - intros key Hkey. by apply load_files_other.
Qed.

(** X10: when the completion has no line that opens a fence, the analysis
    worker executes nothing: it returns a successful envelope that carries
    the completion and the shapes of the registered tables and declares no
    next worker, and the Registry and the process are as loading and the
    model call left them. *)
Theorem completion_without_fence_runs_nothing (input : Input)
    (dataframes dataframes1 : gmap string DataFrame) (context1 : gmap string ctx_entry)
    (w w1 : world) (text : string) :
  load_files (files input) dataframes (context input) w = (None, dataframes1, context1) →
  generate_content (_build_prompt (query input) context1 dataframes1) w = (inr text, w1) →
  Forall (λ line, opens line = false) (PyStr.split_newline text) →
  process input dataframes w =
    (inr (Envelope true (AnalysisOnly text (shape <$> dataframes1))
            "Analysis completed without code execution" name None []),
     dataframes1, w1).
Proof.
  intros Hload Hreply Hprose. unfold process. rewrite Hload, Hreply.
  unfold _extract_code_blocks, scan_start. by rewrite scan_prose.
Qed.

(** X11: every envelope the analysis worker returns names the worker; it
    reports failure exactly when its payload is missing or is an error
    description; the payload is missing exactly when a file could not be
    loaded; and a next worker is declared exactly when scripts were
    executed. *)
Theorem analysis_envelope_shape (input : Input) (dataframes : gmap string DataFrame)
    (w : world) (envelope : AgentResult analysis_data) :
  (process input dataframes w).1.1 = inr envelope →
  agent_name envelope = name ∧
  success envelope = negb (is_missing (data envelope) || is_error (data envelope)) ∧
  (is_missing (data envelope) = true ↔
   is_Some (load_files (files input) dataframes (context input) w).1.1) ∧
  (is_Some (next_agent envelope) ↔ is_executed (data envelope) = true).
Proof.
  unfold process.
  destruct (load_files (files input) dataframes (context input) w)
    as [[[[filename e]|] dataframes1] context1].
  { simpl. intros [= <-]. simpl. split_and!; try done; by split. }
  destruct (generate_content _ w) as [[e|text] w1].
  { simpl. intros [= <-]. simpl. split_and!; try done; split; by inversion 1. }
  destruct (_extract_code_blocks text) as [|code rest].
  { simpl. intros [= <-]. simpl. split_and!; try done; split; by inversion 1. }
  destruct (run_blocks (code :: rest) [] dataframes1 w1) as [[[e|results] dataframes2] w2];
    simpl; [done|].
  intros [= <-]. simpl. by split_and!.
Qed.

End Agent.

Lemma all_files_registered_witness :
  let R := Demo.runtime (inr "") in
  let loaded := load_files Samples.two_uploads ∅ ∅ Demo.world0 in
  loaded.1.1 = None ∧
  (∀ name path, (name, path) ∈ Samples.two_uploads →
     ∃ df summary, read_csv path Demo.world0 = inr df ∧ loaded.1.2 !! name = Some df ∧
                   loaded.2 !! ("df_" +:+ name) = Some (Profile df summary)) ∧
  (∀ key, key ∉ Samples.two_uploads.*1 →
     loaded.1.2 !! key = (∅ : gmap string DataFrame) !! key).
Proof.
  intros R.
  apply (all_files_registered (H := R) Samples.two_uploads ∅ ∅ Demo.world0).
  - repeat constructor; (exists Demo.sales; split; [reflexivity|]; intros _; eexists; reflexivity).
  - by apply (bool_decide_unpack _).
Defined.

Lemma analysis_envelope_shape_witness :
  let R := Demo.runtime (inr Demo.two_scripts) in
  let envelope :=
    Envelope false NoData "Error loading CSV file broken.csv: Error tokenizing data"
      name None [] in
  agent_name envelope = name ∧
  success envelope = negb (is_missing (data envelope) || is_error (data envelope)) ∧
  (is_missing (data envelope) = true ↔
   is_Some (load_files (files Demo.upload) ∅ (context Demo.upload) Demo.world0).1.1) ∧
  (is_Some (next_agent envelope) ↔ is_executed (data envelope) = true).
Proof.
  intros R envelope.
  apply (analysis_envelope_shape (H := R) Demo.upload ∅ Demo.world0 envelope).
  reflexivity.
Defined.

Lemma completion_without_fence_runs_nothing_witness :
  let R := Demo.runtime (inr Samples.prose_only) in
  process Demo.average_query Demo.registry0 Demo.world0 =
    (inr (Envelope true (AnalysisOnly Samples.prose_only (shape <$> Demo.registry0))
            "Analysis completed without code execution" name None []),
     Demo.registry0, Demo.world0).
Proof.
  intros R.
  apply (completion_without_fence_runs_nothing (H := R) Demo.average_query
           Demo.registry0 Demo.registry0 ∅ Demo.world0 Demo.world0 Samples.prose_only).
  - reflexivity.
  - reflexivity.
  - repeat constructor.
Defined.

End AnalysisProps.

(** ** The plot file and the plotting envelope *)

Module PlotFileProps.
Import PyStr Py Dynamic Base Extractor Base64 Visualization Base64Facts PlottingFacts Notions.

(** The payload has four characters for every three bytes, rounded up. *)
Lemma b64encode_length (data : list byte) :
  String.length (b64encode data) = (4 * ((length data + 2) / 3))%nat.
Proof.
  assert (String.length (b64encode data) = (4 * ((length data + 2) / 3))%nat ∧
          (∀ a, String.length (b64encode (a :: data))
                = (4 * ((length (a :: data) + 2) / 3))%nat) ∧
          (∀ a b, String.length (b64encode (a :: b :: data))
                  = (4 * ((length (a :: b :: data) + 2) / 3))%nat)) as [Hdata _]; [|done].
  induction data as [|c data (IH0 & IH1 & IH2)].
  - by repeat split.
  - split; [apply IH1|]. split; [intros a; apply IH2|].
    intros a b. cbn [b64encode String.length length]. rewrite IH0.
    replace (S (S (S (length data))) + 2)%nat with (1 * 3 + (length data + 2))%nat by lia.
    rewrite Nat.div_add_l by done. lia.
Qed.

Section Agent.
Context `{Runtime}.

(** The loop over the entries of [context["dataframes"]], when pandas
    accepts every dictionary among them. *)
Lemma bind_entries_accepted (entries : list (string * dyn)) (exec_globals : gmap string pyval) :
  Forall (λ entry, ∀ items, entry.2 = DDict items → ∃ df, pd_DataFrame items = inr df)
    entries →
  ∃ bound, bind_entries entries exec_globals = inr bound ∧
    (∀ name, name ∉ entries.*1 → bound !! name = exec_globals !! name) ∧
    (NoDup entries.*1 → ∀ name data, (name, data) ∈ entries →
       match data with
       | DDict items => ∃ df, pd_DataFrame items = inr df ∧
                              bound !! name = Some (PyDataFrame df)
       | _ => bound !! name = Some (to_pyval data)
       end).
Proof.
  intros Hok. revert exec_globals.
  induction Hok as [|[n data] entries Hentry _ IH]; intros exec_globals.
  - exists exec_globals. split; [done|]. split; [done|].
    intros _ name data Hin. by apply elem_of_nil in Hin.
  - assert (∃ value, bind_entry exec_globals (n, data) = inr (<[n := value]> exec_globals) ∧
              match data with
              | DDict items => ∃ df, pd_DataFrame items = inr df ∧ value = PyDataFrame df
              | _ => value = to_pyval data
              end) as (value & Hbind & Hvalue).
    { unfold bind_entry. destruct data as [| | | | |items]; simpl; try by eexists.
      destruct (Hentry items eq_refl) as [df Hdf]. simpl. rewrite Hdf. simpl.
      eexists. split; [done|]. by exists df. }
    destruct (IH (<[n := value]> exec_globals)) as (bound & Hrest & Hout & Hin).
    exists bound. cbn [bind_entries mbind raises_bind]. rewrite Hbind. split; [done|]. split.
    + intros name Hname. simpl in Hname. apply not_elem_of_cons in Hname as [Hne Hname].
      rewrite Hout by done. by rewrite lookup_insert_ne.
    + intros Hdup name data' Hmem. simpl in Hdup. apply NoDup_cons in Hdup as [Hfresh Hdup].
      apply elem_of_cons in Hmem as [Heq|Hmem]; [|by apply Hin].
      injection Heq as -> ->. rewrite Hout by done. rewrite lookup_insert_eq.
      destruct data as [| | | | |items]; try by rewrite Hvalue.
      destruct Hvalue as (df & Hdf & ->). by exists df.
Qed.

Lemma completed_script_leaves_no_plot (code : string) (context : plot_context)
    (exec_globals : gmap string pyval) (w : world) :
  initial_globals context = inr exec_globals →
  completed (py_exec code exec_globals w).1 = true →
  files (_create_visualization code context w).2 !! plot_path = None.
Proof.
  intros Hns. unfold _create_visualization. rewrite Hns.
  destruct (py_exec code exec_globals w) as [[g ch out err|e ch out err|e ch out err] w1];
    [|done..].
  intros _. destruct (files w1 !! plot_path) eqn:Hfile; simpl; [|done].
  apply lookup_delete_eq.
Qed.

(** X12: a plot file left behind is taken for the next script's figure: when
    a script raises after the file was written, and the next script
    completes without touching the files, the next script's artifact is a
    success whose payload decodes to the bytes the earlier, failed script
    wrote. *)
Theorem stale_plot_is_taken_for_next (code1 code2 : string) (context : plot_context)
    (exec_globals : gmap string pyval) (w w1 w2 : world) (e : exn)
    (changed1 changed2 : gmap string DataFrame) (out1 err1 out2 err2 : string)
    (globals2 : gmap string pyval) (img_data : list byte) :
  initial_globals context = inr exec_globals →
  py_exec code1 exec_globals w = (Raised e changed1 out1 err1, w1) →
  files w1 !! plot_path = Some img_data →
  py_exec code2 exec_globals (_create_visualization code1 context w).2
    = (Completed globals2 changed2 out2 err2, w2) →
  files w2 = files (_create_visualization code1 context w).2 →
  ∃ first second,
    (_create_visualization code1 context w).1 = inr first ∧
    (_create_visualization code2 context (_create_visualization code1 context w).2).1
      = inr second ∧
    viz_success first = false ∧
    viz_success second = true ∧ viz_code second = code2 ∧
    image_base64 second ≫= b64decode = Some img_data.
Proof.
  intros Hns Hexec1 Hfile Hexec2 Hfiles.
  assert (files (_create_visualization code1 context w).2 !! plot_path = Some img_data)
    as Hleft.
  { unfold _create_visualization. by rewrite Hns, Hexec1. }
  assert (∃ first, (_create_visualization code1 context w).1 = inr first ∧
                   viz_success first = false) as (first & Hfirst & Hfailed).
  { unfold _create_visualization. rewrite Hns, Hexec1. by eexists. }
  exists first. revert Hexec2 Hfiles Hleft.
  generalize (_create_visualization code1 context w).2. intros w' Hexec2 Hfiles Hleft.
  eexists. split; [exact Hfirst|].
  unfold _create_visualization. rewrite Hns, Hexec2, Hfiles, Hleft. simpl.
  split; [done|]. split; [done|]. simpl.
  split; [done|]. split; [done|]. apply b64decode_b64encode.
Qed.

(** X14: after a batch whose last script completes, no file is left at
    [plot.png], whatever the earlier scripts did. *)
Theorem batch_leaves_no_plot_file (code_blocks : list string) (context : plot_context)
    (acc : list Artifact) (w : world) (outcome : exec_outcome) :
  last (plot_outcomes code_blocks context w) = Some outcome →
  completed outcome = true →
  files (render_blocks code_blocks context acc w).2 !! plot_path = None.
Proof.
  destruct (initial_globals context) as [e|exec_globals] eqn:Hns.
  { destruct code_blocks; simpl; [done|]. by rewrite Hns. }
  revert acc w. induction code_blocks as [|code rest IH]; intros acc w Hlast Hdone; [done|].
  simpl in *. rewrite Hns in Hlast.
  pose proof (completed_script_leaves_no_plot code context exec_globals w Hns) as Hstep.
  pose proof (create_visualization_returns code context exec_globals w Hns) as Hret.
  destruct (_create_visualization code context w) as [[t|viz_result] w1]; simpl in *.
  - injection Hlast as Hlast. rewrite Hlast in Hret.
    destruct Hret as [artifact Hart]; [by destruct outcome | done].
  - destruct rest as [|code' rest'].
    + simpl in *. injection Hlast as Hlast. rewrite Hlast in Hstep. by apply Hstep.
    + apply IH; [|done]. rewrite <- Hlast. simpl. by rewrite Hns.
Qed.

(** X15: in every envelope the plotting worker returns, the synthesis worker
    is declared as next exactly when the envelope is a success, and no next
    worker when it is not; the count it reports is the number of listed
    visualizations, which never exceeds the number of extracted scripts. *)
Theorem plotting_envelope_shape (input : Input) (w : world)
    (envelope : AgentResult plot_data) :
  (process input w).1 = inr envelope →
  agent_name envelope = name ∧
  (next_agent envelope = Some "AnswerSynthesiser" ↔ success envelope = true) ∧
  (next_agent envelope = None ↔ success envelope = false) ∧
  match data envelope with
  | Plots analysis visualizations count =>
      success envelope = true ∧
      (count = Some (length visualizations) ∨ (count = None ∧ visualizations = [])) ∧
      (length visualizations ≤ length (_extract_code_blocks analysis))%nat
  | Failed _ => success envelope = false
  end.
Proof.
  unfold process.
  destruct (generate_content _ w) as [[e|text] w1].
  { simpl. intros [= <-]. simpl. split_and!; try done; by split. }
  pose proof (render_blocks_returns (_extract_code_blocks text) (context input) [] w1)
    as Hshown.
  destruct (_extract_code_blocks text) as [|code rest] eqn:Hext.
  { simpl. intros [= <-]. simpl. split_and!; try done; try (by split); [by right | lia]. }
  destruct (render_blocks (code :: rest) (context input) [] w1)
    as [[[e|e]|visualizations] w2]; simpl; [|done|].
  { intros [= <-]. simpl. split_and!; try done; by split. }
  destruct (Hshown visualizations eq_refl) as (-> & Hcodes & _).
  intros [= <-]. cbn [fst app agent_name next_agent success data].
  split_and!; try done; try (by split); [by left|].
  apply (f_equal length) in Hcodes. rewrite length_fmap in Hcodes.
  rewrite Hext, <- Hcodes. apply List.filter_length_le.
Qed.

(** X16: when [context["dataframes"]] is a dictionary with distinct names
    and pandas accepts every dictionary among its values, the namespace of a
    plotting script is built, and every entry is bound in it under its name:
    a dictionary as the table [pd.DataFrame] makes of it, any other value as
    it is; a name that is not among the entries is bound as without them,
    so only an entry named like a library handle replaces it. *)
Theorem context_tables_are_bound (context : plot_context) (entries : list (string * dyn)) :
  pc_dataframes context = Some (DDict entries) → NoDup entries.*1 →
  Forall (λ entry, ∀ items, entry.2 = DDict items → ∃ df, pd_DataFrame items = inr df)
    entries →
  ∃ exec_globals, initial_globals context = inr exec_globals ∧
    (∀ name data, (name, data) ∈ entries →
       match data with
       | DDict items => ∃ df, pd_DataFrame items = inr df ∧
                              exec_globals !! name = Some (PyDataFrame df)
       | _ => exec_globals !! name = Some (to_pyval data)
       end) ∧
    (∀ name, name ∉ entries.*1 → exec_globals !! name = handles !! name).
Proof.
  intros Hentries Hdup Hok. unfold initial_globals. rewrite Hentries. simpl.
  destruct (bind_entries_accepted entries handles Hok) as (bound & -> & Hout & Hin).
  exists bound. split; [done|]. split; [by apply Hin | done].
Qed.

(** X17: the payload of a successful artifact has four characters for every
    three bytes of the image file, rounded up. *)
Theorem payload_length (code : string) (context : plot_context)
    (exec_globals : gmap string pyval) (w w1 : world)
    (globals : gmap string pyval) (changed : gmap string DataFrame)
    (stdout stderr : string) (img_data : list byte) :
  initial_globals context = inr exec_globals →
  py_exec code exec_globals w = (Completed globals changed stdout stderr, w1) →
  files w1 !! plot_path = Some img_data →
  ∃ artifact payload,
    (_create_visualization code context w).1 = inr artifact ∧
    image_base64 artifact = Some payload ∧
    String.length payload = (4 * ((length img_data + 2) / 3))%nat.
Proof.
  intros Hns Hexec Hfile. unfold _create_visualization. rewrite Hns, Hexec, Hfile. simpl.
  eexists _, _. split; [done|]. split; [done|]. apply b64encode_length.
Qed.

(** X24: when the namespace of the plotting scripts cannot be built -- what
    is under [context["dataframes"]] has no [items], or pandas rejects one
    of the dictionaries -- the invocation fails although the model answered
    and scripts were extracted: the envelope is a failure that carries the
    text of that exception, and no script is run. *)
Theorem namespace_failure_fails_plotting (input : Input) (w w1 : world) (text : string)
    (e : exn) :
  generate_content (_build_prompt (query input) (context input)) w = (inr text, w1) →
  _extract_code_blocks text ≠ [] →
  initial_globals (context input) = inl e →
  process input w =
    (inr (Envelope false (Failed (exn_str e))
            ("Error creating visualizations: " +:+ exn_str e) name None []),
     w1) ∧
  plot_outcomes (_extract_code_blocks text) (context input) w1 = [] ∧
  ((∃ tables, pc_dataframes (context input) = Some tables ∧ is_dict tables = false) ∨
   (∃ entries name items,
      pc_dataframes (context input) = Some (DDict entries) ∧
      (name, DDict items) ∈ entries ∧ pd_DataFrame items = inl e)).
Proof.
  intros Hreply Hblocks Hns. unfold process. rewrite Hreply.
  destruct (_extract_code_blocks text) as [|code rest]; [done|].
  simpl. unfold _create_visualization. rewrite Hns. split; [done|]. split; [done|].
  unfold initial_globals in Hns.
  destruct (pc_dataframes (context input)) as [tables|]; [|done].
  destruct tables as [| | | | |entries]; try (left; by eexists).
  right. exists entries. simpl in Hns. revert Hns. generalize handles.
  induction entries as [|[n data] entries IH]; intros exec_globals Hns; [done|].
  cbn [bind_entries mbind raises_bind] in Hns. unfold bind_entry in Hns. simpl in Hns.
  assert (∀ value, bind_entries entries (<[n := value]> exec_globals) = inl e →
            ∃ name items, (name, DDict items) ∈ (n, data) :: entries ∧
                          pd_DataFrame items = inl e) as Hlater.
  { intros value Hrest. destruct (IH _ Hrest) as (name & items & _ & Hin & Hrej).
    exists name, items. split; [by apply list_elem_of_further | done]. }
  destruct data as [| | | | |items]; simpl in Hns;
    try (destruct (Hlater _ Hns) as (name & items' & Hin & Hrej); by exists name, items').
  destruct (pd_DataFrame items) as [e'|df] eqn:Hdf; simpl in Hns.
  - injection Hns as ->. exists n, items. split; [done|]. split; [apply list_elem_of_here | done].
  - destruct (Hlater _ Hns) as (name & items' & Hin & Hrej). by exists name, items'.
Qed.

End Agent.

Lemma stale_plot_is_taken_for_next_witness :
  let R := Demo.runtime (inr "") in
  let after :=
    (_create_visualization Demo.save_then_fail_script Demo.plot_context0 Demo.world0).2 in
  ∃ first second,
    (_create_visualization Demo.save_then_fail_script Demo.plot_context0 Demo.world0).1
      = inr first ∧
    (_create_visualization "total = 1" Demo.plot_context0 after).1 = inr second ∧
    viz_success first = false ∧
    viz_success second = true ∧ viz_code second = "total = 1" ∧
    image_base64 second ≫= b64decode = Some Demo.png.
Proof.
  intros R.
  exact (stale_plot_is_taken_for_next (H := R) Demo.save_then_fail_script "total = 1"
           Demo.plot_context0 Demo.plot_globals0 Demo.world0 (Demo.savefig Demo.world0)
           (Demo.savefig Demo.world0) (Exn "ValueError" "late") ∅ ∅ "" "" "" ""
           (<["total" := PyInt 1]> (Demo.with_builtins Demo.plot_globals0))
           Demo.png eq_refl eq_refl eq_refl eq_refl eq_refl).
Defined.

Lemma batch_leaves_no_plot_file_witness :
  let R := Demo.runtime (inr "") in
  files (render_blocks [Demo.save_then_fail_script; Demo.save_script]
           Demo.plot_context0 [] Demo.world0).2 !! plot_path = None.
Proof.
  intros R.
  exact (batch_leaves_no_plot_file (H := R) [Demo.save_then_fail_script; Demo.save_script]
           Demo.plot_context0 [] Demo.world0
           (Completed (Demo.with_builtins Demo.plot_globals0) ∅ "" "")
           eq_refl eq_refl).
Defined.

Lemma plotting_envelope_shape_witness :
  let R := Demo.runtime (inr Demo.two_plots) in
  ∃ envelope,
    (process Demo.plot_query Demo.world0).1 = inr envelope ∧
    agent_name envelope = name ∧
    (next_agent envelope = Some "AnswerSynthesiser" ↔ success envelope = true) ∧
    (next_agent envelope = None ↔ success envelope = false) ∧
    match data envelope with
    | Plots analysis visualizations count =>
        success envelope = true ∧
        (count = Some (length visualizations) ∨ (count = None ∧ visualizations = [])) ∧
        (length visualizations ≤ length (_extract_code_blocks analysis))%nat
    | Failed _ => success envelope = false
    end.
Proof.
  intros R. eexists. split; [reflexivity|].
  apply (plotting_envelope_shape (H := R) Demo.plot_query Demo.world0). reflexivity.
Defined.

Lemma context_tables_are_bound_witness :
  let R := Demo.runtime (inr "") in
  ∃ exec_globals, initial_globals Demo.plot_context0 = inr exec_globals ∧
    (∀ name data, (name, data) ∈ [("sales", Demo.sales_dict); ("unit", DStr "kEUR")] →
       match data with
       | DDict items => ∃ df, pd_DataFrame items = inr df ∧
                              exec_globals !! name = Some (PyDataFrame df)
       | _ => exec_globals !! name = Some (to_pyval data)
       end) ∧
    (∀ name, name ∉ [("sales", Demo.sales_dict); ("unit", DStr "kEUR")].*1 →
       exec_globals !! name = handles !! name).
Proof.
  intros R.
  apply (context_tables_are_bound (H := R) Demo.plot_context0
           [("sales", Demo.sales_dict); ("unit", DStr "kEUR")]).
  - reflexivity.
  - by apply (bool_decide_unpack _).
  - repeat constructor; simpl; intros items [= <-]; by eexists.
Defined.

Lemma payload_length_witness :
  let R := Demo.runtime (inr "") in
  ∃ artifact payload,
    (_create_visualization Demo.save_script Demo.plot_context0 Demo.world0).1
      = inr artifact ∧
    image_base64 artifact = Some payload ∧
    String.length payload = (4 * ((length Demo.png + 2) / 3))%nat.
Proof.
  intros R.
  exact (payload_length (H := R) Demo.save_script Demo.plot_context0 Demo.plot_globals0
           Demo.world0 (Demo.savefig Demo.world0)
           (Demo.with_builtins Demo.plot_globals0) ∅ "" "" Demo.png
           eq_refl eq_refl eq_refl).
Defined.

Lemma namespace_failure_fails_plotting_witness :
  let R := Demo.runtime (inr Demo.two_plots) in
  let e := Exn "ValueError" "All arrays must be of the same length" in
  process Demo.ragged_query Demo.world0 =
    (inr (Envelope false (Failed (exn_str e))
            ("Error creating visualizations: " +:+ exn_str e) name None []),
     Demo.world0) ∧
  plot_outcomes (_extract_code_blocks Demo.two_plots) (context Demo.ragged_query)
    Demo.world0 = [] ∧
  ((∃ tables, pc_dataframes (context Demo.ragged_query) = Some tables ∧
              is_dict tables = false) ∨
   (∃ entries name items,
      pc_dataframes (context Demo.ragged_query) = Some (DDict entries) ∧
      (name, DDict items) ∈ entries ∧ pd_DataFrame items = inl e)).
Proof.
  intros R e.
  apply (namespace_failure_fails_plotting (H := R) Demo.ragged_query Demo.world0 Demo.world0
           Demo.two_plots e).
  - reflexivity.
  - vm_compute. discriminate.
  - reflexivity.
Defined.

End PlotFileProps.

(** ** The structure of a report *)

Module ReportProps.
Import PyStr Py Base Dynamic Presentation Notions.

Lemma section_not_title (line : string) : is_section line = true → is_title line = false.
Proof.
  unfold is_section, is_title. destruct line as [|a [|b line]]; simpl; try done.
  - by destruct (decide ("#"%char = a)).
  - destruct (decide ("#"%char = a)); [|done].
    destruct (decide ("#"%char = b)) as [<-|]; [|done]. by intros _.
Qed.

Lemma outline_line_title (st : outline) (line : string) :
  is_title line = true →
  outline_line st line =
    MkOutline (strip (replace "# " "" line)) (ol_sections st) (ol_current st).
Proof. unfold is_title. intros Ht. unfold outline_line. by rewrite Ht. Qed.

Lemma outline_line_section (st : outline) (line : string) :
  is_section line = true →
  outline_line st line =
    MkOutline (ol_title st)
      (ol_sections st ++ match ol_current st with Some c => [c] | None => [] end)
      (Some (MkSection (strip (replace "## " "" line)) [])).
Proof.
  intros Hs. pose proof (section_not_title _ Hs) as Ht. unfold is_title, is_section in *.
  unfold outline_line. rewrite Ht, Hs.
  destruct (ol_current st); by rewrite ?app_nil_r.
Qed.

Lemma outline_line_text (st : outline) (line : string) :
  is_title line = false → is_section line = false →
  outline_line st line =
    MkOutline (ol_title st) (ol_sections st)
      (match ol_current st with
       | Some c => Some (MkSection (sec_title c) (sec_content c ++ [line]))
       | None => None
       end).
Proof.
  unfold is_title, is_section. intros Ht Hs. unfold outline_line. rewrite Ht, Hs.
  by destruct st as [t s [c|]].
Qed.

(** Lines without a section heading only reach the section that is open. *)
Lemma outline_body (body : list string) (st : outline) :
  Forall (λ l, is_section l = false) body →
  ol_sections (fold_left outline_line body st) = ol_sections st ∧
  ol_current (fold_left outline_line body st) =
    match ol_current st with
    | Some c =>
        Some (MkSection (sec_title c)
                (sec_content c ++ List.filter (λ l, negb (is_title l)) body))
    | None => None
    end.
Proof.
  intros Hbody. revert st. induction Hbody as [|l body Hl _ IH]; intros st.
  - simpl. split; [done|]. destruct (ol_current st) as [[t c]|]; [|done].
    by rewrite app_nil_r.
  - simpl. destruct (IH (outline_line st l)) as [-> ->].
    destruct (is_title l) eqn:Ht.
    + rewrite outline_line_title by done. done.
    + rewrite outline_line_text by done. simpl. split; [done|].
      destruct (ol_current st) as [[t c]|]; [|done]. simpl. by rewrite <- app_assoc.
Qed.

Lemma outline_blocks (blocks : list heading_block) (st : outline) :
  Forall block_ok blocks →
  closed_sections (fold_left outline_line (concat (block_lines <$> blocks)) st) =
  closed_sections st ++ (section_of <$> blocks).
Proof.
  intros Hblocks. revert st. induction Hblocks as [|b blocks [Hh Hb] _ IH]; intros st.
  - simpl. by rewrite app_nil_r.
  - rewrite !fmap_cons.
    change (concat (block_lines b :: (block_lines <$> blocks)))
      with (hb_heading b :: (hb_body b ++ concat (block_lines <$> blocks))).
    cbn [fold_left]. rewrite fold_left_app, IH.
    destruct (outline_body (hb_body b) (outline_line st (hb_heading b)) Hb) as [Hs Hc].
    unfold closed_sections at 1. rewrite Hs, Hc, outline_line_section by done.
    unfold closed_sections, section_of. simpl. by rewrite <- !app_assoc.
Qed.

(** The title is that of the last title line. *)
Lemma outline_title (lines : list string) (st : outline) :
  ol_title (fold_left outline_line lines st) =
  match last (List.filter is_title lines) with
  | Some line => strip (replace "# " "" line)
  | None => ol_title st
  end.
Proof.
  revert st. induction lines as [|l lines IH]; intros st; [done|].
  simpl. rewrite IH. destruct (is_title l) eqn:Ht.
  - rewrite last_cons. rewrite outline_line_title by done. simpl.
    by destruct (last (List.filter is_title lines)).
  - destruct (last (List.filter is_title lines)); [done|].
    unfold is_title in Ht. unfold outline_line. rewrite Ht.
    destruct (startswith "## " l); [done|]. by destruct (ol_current st).
Qed.

(** What [structure] returns when it returns. *)
Lemma structure_fields (text : string) (context : dyn) (generated : string)
    (p : presentation) :
  structure text context generated = inr p →
  let st := fold_left outline_line (split_newline text)
              (MkOutline "Data Analysis Report" [] None) in
  title p = ol_title st ∧ sections p = closed_sections st ∧
  num_sections (meta p) = length (sections p) ∧
  content p = text ∧ generated_at p = generated.
Proof.
  unfold structure. intros Hp. simpl.
  destruct (py_in "visualization_data" context) as [e|present]; simpl in Hp; [done|].
  destruct (if present then _ else _) as [e|shown]; simpl in Hp; [done|].
  destruct (py_len shown) as [e|count]; simpl in Hp; [done|].
  destruct (py_in "code_interpreter_data" context) as [e|analysed]; simpl in Hp; [done|].
  injection Hp as <-. simpl. unfold closed_sections.
  generalize (fold_left outline_line (split_newline text)
                (MkOutline "Data Analysis Report" [] None)).
  intros [t secs [c|]]; simpl; by rewrite ?app_nil_r.
Qed.

(** X18: the sections of a report follow the [## ] headings of the
    completion: one section per heading, in order, titled by the heading
    without its marker, and holding the lines up to the next [## ] heading
    except those that are [# ] title lines; lines before the first heading
    belong to no section. *)
Theorem sections_follow_headings (text : string) (context : dyn) (generated : string)
    (p : presentation) (preamble : list string) (blocks : list heading_block) :
  structure text context generated = inr p →
  split_newline text = preamble ++ concat (block_lines <$> blocks) →
  Forall (λ l, is_section l = false) preamble → Forall block_ok blocks →
  sections p = section_of <$> blocks ∧ num_sections (meta p) = length blocks.
Proof.
  intros Hp Hsplit Hpre Hblocks.
  destruct (structure_fields _ _ _ _ Hp) as (_ & Hsections & Hnum & _).
  rewrite Hnum, Hsections, Hsplit, fold_left_app, outline_blocks by done.
  destruct (outline_body preamble (MkOutline "Data Analysis Report" [] None) Hpre)
    as [Hs Hc].
  unfold closed_sections. rewrite Hs, Hc. simpl. by rewrite length_fmap.
Qed.

(** X19: the title of a report is taken from the last line of the
    completion that starts with [# ], wherever it stands, with every
    occurrence of that marker removed and the rest trimmed; without such a
    line it is "Data Analysis Report". *)
Theorem title_is_last_title_line (text : string) (context : dyn) (generated : string)
    (p : presentation) :
  structure text context generated = inr p →
  title p = title_of (split_newline text).
Proof.
  intros Hp. destruct (structure_fields _ _ _ _ Hp) as (Htitle & _).
  rewrite Htitle, outline_title. done.
Qed.

Lemma sections_follow_headings_witness :
  ∃ p, structure Samples.report_text (DDict []) "2025-01-01T00:00:00" = inr p ∧
       sections p = section_of <$> Samples.report_blocks ∧
       num_sections (meta p) = length Samples.report_blocks.
Proof.
  eexists. split; [reflexivity|].
  apply (sections_follow_headings Samples.report_text (DDict []) "2025-01-01T00:00:00" _
           ["# Draft"; "preamble"] Samples.report_blocks).
  - reflexivity.
  - reflexivity.
  - repeat constructor.
  - repeat constructor.
Defined.

Lemma title_is_last_title_line_witness :
  ∃ p, structure Samples.report_text (DDict []) "2025-01-01T00:00:00" = inr p ∧
       title p = title_of (split_newline Samples.report_text).
Proof.
  eexists. split; [reflexivity|].
  apply (title_is_last_title_line Samples.report_text (DDict []) "2025-01-01T00:00:00" _).
  reflexivity.
Defined.

End ReportProps.

(** ** Prompts and session keys *)

Module PromptProps.
Import PyStr Py Base Dynamic Notions Session.

Lemma shown_output_step (items : list (string * dyn)) :
  (output ← py_get (DDict items) "output" DNone;
   if truthy output
   then shown ← py_getitem (DDict items) "output"; inr [Fmt shown; Lit nl]
   else inr []) = (inr (shown_output (DDict items)) : exn + prompt).
Proof.
  simpl. unfold dict_get. destruct (lookup_key "output" items) as [x|]; simpl; [|done].
  by destruct (truthy x).
Qed.

(** X20: in the prompts of the reporting and synthesis workers, the script
    results that are dictionaries are shown in order, each by its [output]
    entry when that entry is present and not empty, and skipped otherwise;
    the errors of failed scripts are not shown. *)
Theorem outputs_listed_in_order (results : list dyn) :
  Forall (λ result, is_dict result = true) results →
  outputs_prompt results = inr (concat (shown_output <$> results)).
Proof.
  induction 1 as [|result results Hdict _ IH]; [done|].
  destruct result as [| | | | |items]; try done.
  cbn [outputs_prompt]. unfold py_get at 1. cbn [mbind raises_bind].
  unfold dict_get at 1. rewrite fmap_cons. simpl concat.
  unfold shown_output at 1. unfold dict_get.
  destruct (lookup_key "output" items) as [x|] eqn:Hx; simpl.
  - destruct (truthy x); simpl; rewrite ?Hx, IH; done.
  - by rewrite IH.
Qed.

Lemma outputs_listed_in_order_witness :
  outputs_prompt Samples.script_results =
    inr [Fmt (DStr "42"); Lit nl; Fmt (DStr "done"); Lit nl].
Proof.
  apply (outputs_listed_in_order Samples.script_results). repeat constructor.
Defined.

Lemma lookup_dict_set (key key' : string) (value : dyn) (items : list (string * dyn)) :
  lookup_key key (dict_set key' value items) =
  if decide (key' = key) then Some value else lookup_key key items.
Proof.
  induction items as [|[k v] items IH]; simpl.
  - by destruct (decide (key' = key)).
  - destruct (decide (k = key')) as [->|Hne]; simpl.
    + by destruct (decide (key' = key)).
    + destruct (decide (k = key)) as [->|Hne'].
      * by rewrite decide_False by done.
      * by rewrite IH.
Qed.

Lemma lookup_update_other (key : string) (agent_results : list (string * dyn))
    (context : list (string * dyn)) :
  Forall (λ result, session_key (fst result) ≠ key) agent_results →
  lookup_key key
    (fold_left (λ ctx result, dict_set (session_key (fst result)) (snd result) ctx)
       agent_results context) = lookup_key key context.
Proof.
  intros Hother. revert context. induction Hother as [|r rs Hr _ IH]; intros context; [done|].
  simpl. rewrite IH, lookup_dict_set. by rewrite decide_False.
Qed.

Lemma worker_key_not_read (agent_name : string) :
  agent_name ∈ worker_names →
  session_key agent_name ≠ "code_interpreter_data" ∧
  session_key agent_name ≠ "visualization_data".
Proof.
  unfold worker_names. rewrite !elem_of_cons, elem_of_nil.
  intros [->|[->|[->|[->|[]]]]]; by split.
Qed.

(** X21: a session context keyed the way [main.py] keys it is not read by
    the reporting worker: when the payloads of workers are stored into a
    context that has neither [code_interpreter_data] nor
    [visualization_data], whatever the payloads, the reporting prompt has
    no analysis and no visualization part. *)
Theorem session_context_unread_by_reporter (success : bool)
    (agent_results : list (string * dyn)) (context : list (string * dyn)) (query : dyn) :
  Forall (λ result, fst result ∈ worker_names) agent_results →
  lookup_key "code_interpreter_data" context = None →
  lookup_key "visualization_data" context = None →
  Presentation._build_prompt query (DDict (update_context success agent_results context))
    = inr (bare_report_prompt query).
Proof.
  intros Hnames Hci Hviz.
  assert (lookup_key "code_interpreter_data" (update_context success agent_results context)
          = None ∧
          lookup_key "visualization_data" (update_context success agent_results context)
          = None) as [Hci' Hviz'].
  { unfold update_context. destruct (success && _); [|done].
    rewrite !lookup_update_other; [done| |].
    - eapply Forall_impl; [apply Hnames|]. intros r Hr. by apply worker_key_not_read.
    - eapply Forall_impl; [apply Hnames|]. intros r Hr. by apply worker_key_not_read. }
  unfold Presentation._build_prompt, Presentation.analysis_part,
    Presentation.visualization_part, py_in. rewrite Hci', Hviz'. done.
Qed.

Lemma session_context_unread_by_reporter_witness :
  Presentation._build_prompt (DStr "Write a report")
    (DDict (update_context true Samples.stored_results []))
    = inr (bare_report_prompt (DStr "Write a report")).
Proof.
  apply (session_context_unread_by_reporter true Samples.stored_results []
           (DStr "Write a report")).
  - repeat constructor; vm_compute;
      repeat (first [apply list_elem_of_here | apply list_elem_of_further]).
  - reflexivity.
  - reflexivity.
Defined.

Lemma session_key_inj (name name' : string) :
  name ∈ worker_names → name' ∈ worker_names →
  session_key name = session_key name' → name = name'.
Proof.
  unfold worker_names. rewrite !elem_of_cons, !elem_of_nil.
  intros [->|[->|[->|[->|[]]]]] [->|[->|[->|[->|[]]]]]; done.
Qed.

Lemma stored_payload_lookup (agent_results : list (string * dyn))
    (context : list (string * dyn)) (name : string) (data : dyn) :
  Forall (λ result, fst result ∈ worker_names) agent_results →
  NoDup (fst <$> agent_results) →
  (name, data) ∈ agent_results →
  lookup_key (session_key name)
    (fold_left (λ ctx result, dict_set (session_key (fst result)) (snd result) ctx)
       agent_results context) = Some data.
Proof.
  intros Hnames. revert context.
  induction Hnames as [|r rs Hr Hrs IH]; intros context Hnodup Hin.
  - by apply elem_of_nil in Hin.
  - rewrite fmap_cons in Hnodup. apply NoDup_cons in Hnodup as [Hfresh Hnodup].
    simpl. apply elem_of_cons in Hin as [<-|Hin]; [|by apply IH].
    simpl in *. rewrite lookup_update_other.
    + rewrite lookup_dict_set. by rewrite decide_True.
    + apply Forall_forall. intros r' Hr' Heq. apply Hfresh.
      rewrite Forall_forall in Hrs.
      apply session_key_inj in Heq; [|by apply Hrs|done].
      rewrite <- Heq. apply list_elem_of_fmap. by exists r'.
Qed.

(** X22: what a successful run stores is found by the synthesis worker:
    when the run's results are keyed by distinct worker names, the payload
    of each worker is stored under that worker's lowercased name followed
    by [_data], and a payload of the analysis, plotting or reporting worker
    that is truthy makes the synthesis worker report that it had context. *)
Theorem stored_payload_reaches_synthesis (agent_results : list (string * dyn))
    (context : list (string * dyn)) (name : string) (data : dyn) :
  Forall (λ result, fst result ∈ worker_names) agent_results →
  NoDup (fst <$> agent_results) →
  (name, data) ∈ agent_results →
  lookup_key (session_key name) (update_context true agent_results context) = Some data ∧
  (name ∈ [CodeInterpreter.name; Visualization.name; Presentation.name] →
   truthy data = true →
   Synthesiser.has_context (DDict (update_context true agent_results context)) = inr true).
Proof.
  intros Hnames Hnodup Hin.
  assert (lookup_key (session_key name) (update_context true agent_results context)
          = Some data) as Hfound.
  { unfold update_context. destruct agent_results as [|r rs]; [by apply elem_of_nil in Hin|].
    cbn [andb]. by apply stored_payload_lookup. }
  split; [done|]. intros Hname Htruthy.
  generalize dependent (update_context true agent_results context). intros stored Hfound.
  unfold Synthesiser.has_context, py_get. cbn [mbind raises_bind]. unfold dict_get.
  rewrite !elem_of_cons, elem_of_nil in Hname.
  destruct Hname as [->|[->|[->|[]]]]; vm_compute session_key in Hfound.
  - rewrite Hfound. simpl. by rewrite Htruthy.
  - destruct (truthy (default DNone (lookup_key "codeinterpreter_data" stored))); [done|].
    rewrite Hfound. simpl. by rewrite Htruthy.
  - destruct (truthy (default DNone (lookup_key "codeinterpreter_data" stored))); [done|].
    destruct (truthy (default DNone (lookup_key "visualizationagent_data" stored)));
      [done|].
    rewrite Hfound. simpl. by rewrite Htruthy.
Qed.

Lemma stored_payload_reaches_synthesis_witness :
  lookup_key (session_key "VisualizationAgent")
    (update_context true Samples.stored_results []) =
    Some (DDict [("visualization_count", DInt 1)]) ∧
  (Visualization.name ∈ [CodeInterpreter.name; Visualization.name; Presentation.name] →
   truthy (DDict [("visualization_count", DInt 1)]) = true →
   Synthesiser.has_context (DDict (update_context true Samples.stored_results [])) = inr true).
Proof.
  apply (stored_payload_reaches_synthesis Samples.stored_results []
           "VisualizationAgent" (DDict [("visualization_count", DInt 1)])).
  - repeat constructor; vm_compute;
      repeat (first [apply list_elem_of_here | apply list_elem_of_further]).
  - by apply (bool_decide_unpack _).
  - apply list_elem_of_further, list_elem_of_here.
Defined.

Section Agent.
Context `{Runtime}.

(** X23: the reporting and synthesis workers are terminal: every envelope
    they return names the worker and declares no next worker, and it is a
    success exactly when its payload is not an error description; the
    synthesis worker returns an envelope on every input. *)
Theorem reporting_and_synthesis_are_terminal (input_data : list (string * dyn)) (w : world) :
  match (Presentation.process input_data w).1 with
  | inr envelope =>
      agent_name envelope = Presentation.name ∧ next_agent envelope = None ∧
      success envelope =
        match data envelope with Presentation.Failed _ => false | _ => true end
  | inl _ => True
  end ∧
  ∃ envelope,
    (Synthesiser.process input_data w).1 = inr envelope ∧
    agent_name envelope = Synthesiser.name ∧ next_agent envelope = None ∧
    success envelope =
      match data envelope with Synthesiser.Failed _ => false | _ => true end.
Proof.
  split.
  - unfold Presentation.process.
    destruct (Presentation._build_prompt _ _) as [e|p]; [done|].
    destruct (generate_content p w) as [[e|text] w1]; [done|].
    destruct (Presentation._structure_presentation text _ w1) as [[e|pres] w2]; [done|].
    by destruct (now_isoformat w2).
  - unfold Synthesiser.process, Synthesiser.attempt.
    destruct (Synthesiser._build_prompt _ _) as [e|p]; [by eexists|].
    destruct (generate_content p w) as [[e|text] w1]; [by eexists|].
    destruct (Synthesiser.has_context _) as [e|flag]; by eexists.
Qed.

End Agent.
End PromptProps.
